(** * kraken-iac/common, package [option] (types/option/option.go)

    A field of a declarative resource is given either as a literal or as a
    reference to a value held elsewhere (a ConfigMap key, a Secret key, a path
    in another Kraken resource).  This development embeds the package in Rocq:
    the structs as records, nil-able pointers as [option], Go maps as stdpp
    [gmap]s living in a store, [(value, error)] results as pairs, and panics as
    an outcome of their own. *)

From Stdlib Require Import ZArith Lia List Strings.Ascii Strings.String.
From Stdlib Require Import Floats.SpecFloat.
From stdpp Require Import base option strings gmap.

Local Open Scope string_scope.
Local Open Scope Z_scope.

Set Warnings "-register-all".

(** ** Go scalars *)

(** The double quote character (ASCII 34) of the Go format strings. *)
Definition dq : string := String (ascii_of_nat 34) EmptyString.

(** [int] on a 64-bit platform. *)
Definition int : Type := Z.
Definition minInt : int := - 2 ^ 63.
Definition maxInt : int := 2 ^ 63 - 1.
Definition is_int (z : Z) : bool := (minInt <=? z) && (z <=? maxInt).

(** Two's complement wrap-around of 64-bit signed and unsigned arithmetic. *)
Definition wrap_uint64 (z : Z) : Z := z mod 2 ^ 64.
Definition wrap_int (z : Z) : int := (z + 2 ^ 63) mod 2 ^ 64 - 2 ^ 63.

(** [float64]: IEEE 754 binary64 ([prec = 53], [emax = 1024]). *)
Definition float64 : Type := spec_float.

(** The integer obtained from a finite float by discarding its fraction;
    [None] for infinities and NaN. *)
Definition truncate (f : float64) : option Z :=
  match f with
  | S754_zero _ => Some 0
  | S754_finite s m e =>
      let q := match e with
               | Z0 => Zpos m
               | Zpos p => Z.shiftl (Zpos m) (Zpos p)
               | Zneg p => Z.shiftr (Zpos m) (Zpos p)
               end in
      Some (if s then - q else q)
  | S754_infinity _ | S754_nan => None
  end.

(** [[]byte]: a sequence of bytes, as is a Go [string]. *)
Definition bytes : Type := string.

(** ** Dynamic values and [reflect] *)

(** The values [encoding/json] stores in an [interface{}]: [nil], [bool],
    [float64], [string], [[]interface{}] and [map[string]interface{}]. *)
Inductive any : Type :=
| anyNil
| anyBool (b : bool)
| anyFloat64 (f : float64)
| anyString (s : string)
| anySlice (l : list any)
| anyMap (m : list (string * any)).

Module reflect.

Inductive Kind : Set :=
| Invalid | Bool | Int | Int8 | Int16 | Int32 | Int64
| Uint | Uint8 | Uint16 | Uint32 | Uint64 | Uintptr
| Float32 | Float64 | Complex64 | Complex128
| Array | Chan | Func | Interface | Map | Pointer | Slice
| String | Struct | UnsafePointer.

#[global] Instance Kind_eq_dec : EqDecision Kind.
Proof. solve_decision. Defined.

(** The dynamic types met in this package. *)
Inductive rtype : Set :=
| bool_t | float64_t | string_t | slice_any_t | map_string_any_t.

(** [reflect.Type] is an interface: [None] is its nil value. *)
Definition Type_ : Type := option rtype.

(** [reflect.TypeOf(i)]: the dynamic type of [i], nil for a nil interface. *)
Definition TypeOf (i : any) : Type_ :=
  match i with
  | anyNil => None
  | anyBool _ => Some bool_t
  | anyFloat64 _ => Some float64_t
  | anyString _ => Some string_t
  | anySlice _ => Some slice_any_t
  | anyMap _ => Some map_string_any_t
  end.

Definition rtype_Kind (t : rtype) : Kind :=
  match t with
  | bool_t => Bool
  | float64_t => Float64
  | string_t => String
  | slice_any_t => Slice
  | map_string_any_t => Map
  end.

(** [Kind.String()]. *)
Definition Kind_String (k : Kind) : string :=
  match k with
  | Invalid => "invalid" | Bool => "bool" | Int => "int" | Int8 => "int8"
  | Int16 => "int16" | Int32 => "int32" | Int64 => "int64" | Uint => "uint"
  | Uint8 => "uint8" | Uint16 => "uint16" | Uint32 => "uint32"
  | Uint64 => "uint64" | Uintptr => "uintptr" | Float32 => "float32"
  | Float64 => "float64" | Complex64 => "complex64"
  | Complex128 => "complex128" | Array => "array" | Chan => "chan"
  | Func => "func" | Interface => "interface" | Map => "map"
  | Pointer => "ptr" | Slice => "slice" | String => "string"
  | Struct => "struct" | UnsafePointer => "unsafe.Pointer"
  end.

End reflect.

(** ** Errors

    A non-nil [error] value.  [fmt.Errorf] is kept as its format and operands;
    [error] itself is [option err], [None] being nil. *)
Inductive err : Type :=
| errors_New (text : string)
| fmt_Errorf (format : string) (a : list operand)
| strconv_NumError (Func Num : string) (Err : err)
| json_SyntaxError (msg : string) (Offset : Z)
with operand : Type :=
| opString (s : string)
| opInt (n : int)
| opKind (k : reflect.Kind)
| opAny (d : any)
| opError (e : err).

Abbreviation error := (option err).

(** ** Calls: results, panics and the store *)

Inductive outcome (A : Type) : Type :=
| Returns (a : A)
| Panics (v : string).
Arguments Returns {A} a.
Arguments Panics {A} v.

(** A computation over a store [S]: the caller-owned structure behind a
    pointer, or the tables behind Go maps, which are references. *)
Definition Exec (S A : Type) : Type := S -> outcome A * S.

Definition ret {S A} (a : A) : Exec S A := fun σ => (Returns a, σ).

Definition bind {S A B} (c : Exec S A) (k : A -> Exec S B) : Exec S B :=
  fun σ => match c σ with
           | (Returns a, σ') => k a σ'
           | (Panics v, σ') => (Panics v, σ')
           end.

Definition panic {S A} (v : string) : Exec S A := fun σ => (Panics v, σ).
Definition gets {S A} (f : S -> A) : Exec S A := fun σ => (Returns (f σ), σ).
Definition modify {S} (f : S -> S) : Exec S unit := fun σ => (Returns tt, f σ).

Notation "x <- c ;; k" := (bind c (fun x => k))
  (at level 100, c at next level, right associativity).
Notation "c ;;; k" := (bind c (fun _ => k))
  (at level 100, right associativity).

(** [m[k]] with the comma-ok form, for a map variable [m] of the store. *)
Definition mapIndex {S V} (m : S -> gmap string V) (k : string)
  : Exec S (option V) := gets (fun σ => m σ !! k).

(** Calling a method on a nil [reflect.Type]. *)
Definition nilDereference : string :=
  "runtime error: invalid memory address or nil pointer dereference".

Definition Type_Kind {S} (t : reflect.Type_) : Exec S reflect.Kind :=
  match t with
  | Some t => ret (reflect.rtype_Kind t)
  | None => panic nilDereference
  end.

(** ** [strconv]: base-10 parsing of [int], as [Atoi] does it on 64 bits *)

Module strconv.

Definition ErrSyntax : err := errors_New "invalid syntax".
Definition ErrRange : err := errors_New "value out of range".

Definition syntaxError (fn str : string) : err :=
  strconv_NumError fn str ErrSyntax.
Definition rangeError (fn str : string) : err :=
  strconv_NumError fn str ErrRange.

Definition byte (c : ascii) : Z := Z.of_N (N_of_ascii c).

Definition maxUint64 : Z := 2 ^ 64 - 1.

(** The digit loop of [ParseUint(s, 10, 64)]: [s0] is the whole argument,
    [n] the value read so far.  A letter is a digit of at least 10 and an
    underscore is refused outside base 0: both are syntax errors, as is any
    other byte that is not a decimal digit. *)
Fixpoint ParseUint_loop (s0 s : string) (n : Z) : Z * error :=
  match s with
  | EmptyString => (n, None)
  | String c s' =>
      let c := byte c in
      if (48 <=? c) && (c <=? 57) then
        let d := c - 48 in
        if maxUint64 / 10 + 1 <=? n then
          (maxUint64, Some (rangeError "ParseUint" s0))
        else
          let n := n * 10 in
          let n1 := wrap_uint64 (n + d) in
          if (n1 <? n) || (maxUint64 <? n1) then
            (maxUint64, Some (rangeError "ParseUint" s0))
          else ParseUint_loop s0 s' n1
      else (0, Some (syntaxError "ParseUint" s0))
  end.

Definition ParseUint (s : string) : Z * error :=
  match s with
  | EmptyString => (0, Some (syntaxError "ParseUint" s))
  | _ => ParseUint_loop s s 0
  end.

Definition is_ErrRange (e : err) : bool :=
  match e with
  | errors_New t => String.eqb t "value out of range"
  | _ => false
  end.

(** The range check of [ParseInt] on the unsigned value, for 64 bits. *)
Definition ParseInt_range (s0 : string) (neg : bool) (un : Z) : Z * error :=
  if negb neg && (2 ^ 63 <=? un) then
    (2 ^ 63 - 1, Some (rangeError "ParseInt" s0))
  else if neg && (2 ^ 63 <? un) then
    (- 2 ^ 63, Some (rangeError "ParseInt" s0))
  else (if neg then wrap_int (- wrap_int un) else wrap_int un, None).

(** [ParseInt(s, 10, 0)]: an error of [ParseUint] other than a range error
    is returned under the name of [ParseInt]; a range error of [ParseUint]
    comes with [un = maxUint64] and is caught by the range check. *)
Definition ParseInt (s0 : string) : Z * error :=
  match s0 with
  | EmptyString => (0, Some (syntaxError "ParseInt" s0))
  | String c rest =>
      let neg := Ascii.eqb c "-" in
      let s := if Ascii.eqb c "+" || neg then rest else s0 in
      let '(un, e) := ParseUint s in
      match e with
      | Some (strconv_NumError _ _ e') =>
          if negb (is_ErrRange e') then
            (0, Some (strconv_NumError "ParseInt" s0 e'))
          else ParseInt_range s0 neg un
      | Some e' => (0, Some e')
      | None => ParseInt_range s0 neg un
      end
  end.

(** The loop of the fast path: [ch -= '0'] is byte arithmetic. *)
Fixpoint Atoi_loop (s : string) (n : int) : option int :=
  match s with
  | EmptyString => Some n
  | String ch s' =>
      let ch := (byte ch - 48) mod 256 in
      if 9 <? ch then None else Atoi_loop s' (wrap_int (n * 10 + ch))
  end.

Definition Atoi (s0 : string) : int * error :=
  let sLen := Z.of_nat (String.length s0) in
  if (0 <? sLen) && (sLen <? 19) then
    match s0 with
    | EmptyString => (0, Some (syntaxError "Atoi" s0))
    | String c rest =>
        let signed := Ascii.eqb c "-" || Ascii.eqb c "+" in
        let s := if signed then rest else s0 in
        if signed && (Z.of_nat (String.length s) <? 1) then
          (0, Some (syntaxError "Atoi" s0))
        else
          match Atoi_loop s 0 with
          | None => (0, Some (syntaxError "Atoi" s0))
          | Some n => (if Ascii.eqb c "-" then wrap_int (- n) else n, None)
          end
    end
  else
    match ParseInt s0 with
    | (i64, Some (strconv_NumError _ num e)) =>
        (i64, Some (strconv_NumError "Atoi" num e))
    | r => r
    end.

End strconv.

(** What the specification calls a base-10 integer: an optional sign and at
    least one decimal digit, read as the number they denote. *)
Fixpoint digits_value (s : string) (acc : Z) : option Z :=
  match s with
  | EmptyString => Some acc
  | String c s' =>
      let c := strconv.byte c in
      if (48 <=? c) && (c <=? 57) then digits_value s' (acc * 10 + (c - 48))
      else None
  end.

Definition base10_value (s : string) : option Z :=
  match s with
  | EmptyString => None
  | String c rest =>
      if Ascii.eqb c "-" then
        match rest with
        | EmptyString => None
        | _ => Z.opp <$> digits_value rest 0
        end
      else if Ascii.eqb c "+" then
        match rest with
        | EmptyString => None
        | _ => digits_value rest 0
        end
      else digits_value s 0
  end.

(** ** What the package takes from outside

    [gabs.ParseJSON] (github.com/Jeffail/gabs/v2) decodes a document with
    [encoding/json] into a container of a dynamic value.  The conversion of a
    [float64] that no [int] represents succeeds in Go with a value that
    depends on the implementation.  Both are parameters of the embedding. *)

Module gabs.
Record Container : Type := mkContainer { Data : any }.
End gabs.

Class Platform : Type := {
  gabs_ParseJSON : bytes -> gabs.Container + err;
  int_unrepresentable : float64 -> int
}.

(** [int(f)] for [f] of type [float64]: the fraction is discarded. *)
Definition int_of_float64 `{Platform} (f : float64) : int :=
  match truncate f with
  | Some z => if is_int z then z else int_unrepresentable f
  | None => int_unrepresentable f
  end.

(** The type arguments [getValueFromKrakenResource] is instantiated with. *)
Inductive TypeArg : Set := T_string | T_float64.

Definition inst (T : TypeArg) : Type :=
  match T with T_string => string | T_float64 => float64 end.

(** [var val T]: the zero value. *)
Definition zero (T : TypeArg) : inst T :=
  match T with T_string => EmptyString | T_float64 => S754_zero false end.

(** A value of type [T] passed where an [interface{}] is expected. *)
Definition box (T : TypeArg) : inst T -> any :=
  match T with T_string => anyString | T_float64 => anyFloat64 end.

(** [data.(T)]: the value held by [data] if its dynamic type is [T]; a
    failed assertion panics. *)
Definition unbox (T : TypeArg) (data : any) : option (inst T) :=
  match T, data with
  | T_string, anyString s => Some (s : inst T_string)
  | T_float64, anyFloat64 f => Some (f : inst T_float64)
  | _, _ => None
  end.

Definition assert {S} (T : TypeArg) (data : any) : Exec S (inst T) :=
  match unbox T data with
  | Some v => ret v
  | None => panic "interface conversion"
  end.

(** ** The API types of kraken-iac/kraken ([krakenv1alpha1]), as used here *)

Module ConfigMapDependency.
Record t : Type := mk { Name : string; Key : string }.
End ConfigMapDependency.

Module KrakenResourceDependency.
Record t : Type := mk {
  Kind : string; Name : string; Path : string; ReflectKind : reflect.Kind
}.
End KrakenResourceDependency.

Module DependencyRequestSpec.
Record t : Type := mk {
  ConfigMapDependencies : list ConfigMapDependency.t;
  KrakenResourceDependencies : list KrakenResourceDependency.t
}.
End DependencyRequestSpec.

Module JSON.
Record t : Type := mk { Raw : bytes }.
End JSON.

Module DependentValues.
Record t : Type := mk {
  FromConfigMaps : gmap string (gmap string string);
  FromKrakenResources : gmap string (gmap string (gmap string JSON.t))
}.
End DependentValues.

(** ** Package [option] *)

(** [p != nil] for a pointer [p]. *)
Definition nonNil {A} (p : option A) : bool :=
  match p with Some _ => true | None => false end.

Definition errValidationNoValueOrRef : err :=
  errors_New "neither value reference nor concrete value provided".
Definition errValidationBothValueAndRef : err :=
  errors_New "both value reference and concrete value provided".

Module ValueFromConfigMap.
Record t : Type := mk { Name : string; Key : string }.

Definition ToConfigMapDependency (vfcm : t) : ConfigMapDependency.t :=
  ConfigMapDependency.mk (Name vfcm) (Key vfcm).

Definition Validate (vfcm : t) : error :=
  if decide (Name vfcm = EmptyString) then
    Some (errors_New "ConfigMap name cannot be empty")
  else if decide (Key vfcm = EmptyString) then
    Some (errors_New "ConfigMap key cannot be empty")
  else None.
End ValueFromConfigMap.

Module ValueFromSecret.
Record t : Type := mk { Name : string; Key : string }.

Definition ToSecretDependency {S} (vfs : t) : Exec S unit :=
  panic "Not implemented".
End ValueFromSecret.

Module ValueFromKrakenResource.
Record t : Type := mk { Kind : string; Name : string; Path : string }.

Definition ToKrakenResourceDependency (vfkr : t) (kind : reflect.Kind)
  : KrakenResourceDependency.t :=
  KrakenResourceDependency.mk (Kind vfkr) (Name vfkr) (Path vfkr) kind.
End ValueFromKrakenResource.

Module ValueFrom.
Record t : Type := mk {
  ConfigMap : option ValueFromConfigMap.t;
  Secret : option ValueFromSecret.t;
  KrakenResource : option ValueFromKrakenResource.t
}.

(** [dr] is a pointer to the caller's structure: the store. *)
Definition AddToDependencyRequestSpec (vf : t) (kind : reflect.Kind)
  : Exec DependencyRequestSpec.t unit :=
  match KrakenResource vf with
  | Some kr =>
      modify (fun dr =>
        DependencyRequestSpec.mk
          (DependencyRequestSpec.ConfigMapDependencies dr)
          (DependencyRequestSpec.KrakenResourceDependencies dr ++
           [ValueFromKrakenResource.ToKrakenResourceDependency kr kind]))
  | None => ret tt
  end ;;;
  match ConfigMap vf with
  | Some cm =>
      modify (fun dr =>
        DependencyRequestSpec.mk
          (DependencyRequestSpec.ConfigMapDependencies dr ++
           [ValueFromConfigMap.ToConfigMapDependency cm])
          (DependencyRequestSpec.KrakenResourceDependencies dr))
  | None => ret tt
  end ;;;
  match Secret vf with
  | Some _ => panic "Unimplemented"
  | None => ret tt
  end.

Definition nonNilCount (vf : t) : int :=
  let nonNilCount := 0 in
  let nonNilCount :=
    if nonNil (ConfigMap vf) then nonNilCount + 1 else nonNilCount in
  let nonNilCount :=
    if nonNil (Secret vf) then nonNilCount + 1 else nonNilCount in
  let nonNilCount :=
    if nonNil (KrakenResource vf) then nonNilCount + 1 else nonNilCount in
  nonNilCount.

Definition Validate (vf : t) : error :=
  if decide (nonNilCount vf <> 1) then
    Some (fmt_Errorf "expected a single value reference but received %d"
            [opInt (nonNilCount vf)])
  else None.
End ValueFrom.

(** The maps of the value bag are passed by reference: [cmVals] and [krVals]
    below name a map of the store, and indexing reads the store. *)
Definition getValueFromConfigMap {S} (cmRef : ValueFromConfigMap.t)
    (cmVals : S -> gmap string (gmap string string))
  : Exec S (option string * error) :=
  cm <- mapIndex cmVals (ValueFromConfigMap.Name cmRef) ;;
  match cm with
  | None =>
      ret (None, Some (fmt_Errorf
        ("ConfigMap " +:+ dq +:+ "%s" +:+ dq +:+
         " does not exist in DependentValues")
        [opString (ValueFromConfigMap.Name cmRef)]))
  | Some cm =>
      match cm !! ValueFromConfigMap.Key cmRef with
      | None =>
          ret (None, Some (fmt_Errorf
            ("key " +:+ dq +:+ "%s" +:+ dq +:+
             " does not exist in DependentValues ConfigMap " +:+
             dq +:+ "%s" +:+ dq)
            [opString (ValueFromConfigMap.Key cmRef);
             opString (ValueFromConfigMap.Name cmRef)]))
      | Some val => ret (Some val, None)
      end
  end.

Definition getValueFromKrakenResource `{Platform} {S} (T : TypeArg)
    (krRef : ValueFromKrakenResource.t)
    (krVals : S -> gmap string (gmap string (gmap string JSON.t)))
  : Exec S (option (inst T) * error) :=
  kind <- mapIndex krVals (ValueFromKrakenResource.Kind krRef) ;;
  match kind with
  | None =>
      ret (None, Some (fmt_Errorf
        ("no entry for kind " +:+ dq +:+ "%s" +:+ dq +:+
         " in DependentValues")
        [opString (ValueFromKrakenResource.Kind krRef)]))
  | Some kind =>
  match kind !! ValueFromKrakenResource.Name krRef with
  | None =>
      ret (None, Some (fmt_Errorf
        ("no entry for resource " +:+ dq +:+ "%s" +:+ dq +:+
         " in DependentValues")
        [opString (ValueFromKrakenResource.Name krRef)]))
  | Some resource =>
  match resource !! ValueFromKrakenResource.Path krRef with
  | None =>
      ret (None, Some (fmt_Errorf
        ("no entry for path " +:+ dq +:+ "%s" +:+ dq +:+
         " in DependentValues")
        [opString (ValueFromKrakenResource.Path krRef)]))
  | Some jsonVal =>
  match gabs_ParseJSON (JSON.Raw jsonVal) with
  | inr e =>
      ret (None, Some (fmt_Errorf "error parsing JSON: %s" [opError e]))
  | inl jsonContainer =>
      let data := gabs.Data jsonContainer in
      let val := zero T in
      expectedType <- Type_Kind (reflect.TypeOf (box T val)) ;;
      actualType <- Type_Kind (reflect.TypeOf data) ;;
      if decide (actualType <> expectedType) then
        ret (None, Some (fmt_Errorf
          ("provided value " +:+ dq +:+ "%s" +:+ dq +:+ " is of type " +:+
           dq +:+ "%s" +:+ dq +:+ "; expected type " +:+
           dq +:+ "%s" +:+ dq)
          [opAny data; opKind actualType; opKind expectedType]))
      else
        val <- assert T data ;;
        ret (Some val, None)
  end end end end.

Definition errNoReference : err :=
  errors_New
    "ValueFrom object is not nil but does not contain any non-nil pointer references".

Module String.
Record t : Type := mk {
  Value : option string;
  ValueFrom : option ValueFrom.t
}.

Definition ToApplicableValue `{Platform} (s : t)
  : Exec DependentValues.t (option string * error) :=
  match Value s with
  | Some v => ret (Some v, None)
  | None =>
  match ValueFrom s with
  | None => ret (None, None)
  | Some vf =>
  match ValueFrom.ConfigMap vf with
  | Some cm => getValueFromConfigMap cm DependentValues.FromConfigMaps
  | None =>
  match ValueFrom.KrakenResource vf with
  | Some kr =>
      getValueFromKrakenResource T_string kr
        DependentValues.FromKrakenResources
  | None => ret (None, Some errNoReference)
  end end end end.

Definition Validate (s : t) : error :=
  match Value s, ValueFrom s with
  | Some _, Some _ => Some errValidationBothValueAndRef
  | Some _, None => None
  | None, None => Some errValidationNoValueOrRef
  | None, Some vf => ValueFrom.Validate vf
  end.
End String.

Module Int.
Record t : Type := mk {
  Value : option int;
  ValueFrom : option ValueFrom.t
}.

Definition ToApplicableValue `{Platform} (i : t)
  : Exec DependentValues.t (option int * error) :=
  match Value i with
  | Some v => ret (Some v, None)
  | None =>
  match ValueFrom i with
  | None => ret (None, None)
  | Some vf =>
  match ValueFrom.ConfigMap vf with
  | Some cm =>
      r <- getValueFromConfigMap cm DependentValues.FromConfigMaps ;;
      match r with
      | (_, Some e) => ret (None, Some e)
      | (None, None) => panic nilDereference
      | (Some valString, None) =>
          match strconv.Atoi valString with
          | (_, Some e) => ret (None, Some e)
          | (val, None) => ret (Some val, None)
          end
      end
  | None =>
  match ValueFrom.KrakenResource vf with
  | Some kr =>
      r <- getValueFromKrakenResource T_float64 kr
             DependentValues.FromKrakenResources ;;
      match r with
      | (_, Some e) => ret (None, Some e)
      | (None, None) => panic nilDereference
      | (Some valFloat, None) => ret (Some (int_of_float64 valFloat), None)
      end
  | None => ret (None, Some errNoReference)
  end end end end.

Definition Validate (i : t) : error :=
  match Value i, ValueFrom i with
  | Some _, Some _ => Some errValidationBothValueAndRef
  | Some _, None => None
  | None, None => Some errValidationNoValueOrRef
  | None, Some vf => ValueFrom.Validate vf
  end.
End Int.

(** ** A platform to run the package on

    A decoder for the scalar JSON documents ([null], [true], [false], strings
    without escapes, decimal numbers without exponent), which it decodes as
    [encoding/json] does: numbers to the nearest [float64], ties to even.
    Any other document is outside this decoder and is refused.  The
    conversion of an unrepresentable float gives the smallest [int], as the
    amd64 instruction does. *)

Module scalar.

Definition is_space (c : ascii) : bool :=
  let b := strconv.byte c in
  (b =? 32) || (b =? 9) || (b =? 10) || (b =? 13).

Fixpoint skip_space (s : string) : string :=
  match s with
  | String c s' => if is_space c then skip_space s' else s
  | EmptyString => s
  end.

Definition at_end (s : string) : bool :=
  match skip_space s with EmptyString => true | _ => false end.

Definition refuse : gabs.Container + err :=
  inr (json_SyntaxError "invalid or unsupported document" 0).

(** The body of a string up to its closing quote. *)
Fixpoint string_body (s : string) : option (string * string) :=
  match s with
  | EmptyString => None
  | String c s' =>
      let b := strconv.byte c in
      if b =? 34 then Some (EmptyString, s')
      else if (b <? 32) || (b =? 92) || (127 <? b) then None
      else match string_body s' with
           | Some (body, rest) => Some (String c body, rest)
           | None => None
           end
  end.

(** Leading decimal digits: their value, their number, and the rest. *)
Fixpoint digits (s : string) (acc : Z) (n : Z) : Z * Z * string :=
  match s with
  | String c s' =>
      let b := strconv.byte c in
      if (48 <=? b) && (b <=? 57) then digits s' (acc * 10 + (b - 48)) (n + 1)
      else (acc, n, s)
  | EmptyString => (acc, n, s)
  end.

(** The [float64] nearest to [m / 10 ^ k], for [0 < m]. *)
Definition nearest (neg : bool) (m k : Z) : float64 :=
  let den := 10 ^ k in
  let s := Z.max 0 (64 + Z.log2 den - Z.log2 m) in
  let num := Z.shiftl m s in
  let q := num / den in
  let r := num mod den in
  let l := if r =? 0 then loc_Exact else loc_Inexact (2 * r ?= den) in
  binary_round_aux 53 1024 neg q (- s) l.

Definition number (s : string) : gabs.Container + err :=
  let '(neg, s1) := match s with
                    | String c s' =>
                        if Ascii.eqb c "-" then (true, s') else (false, s)
                    | EmptyString => (false, s)
                    end in
  let '(ip, n, s2) := digits s1 0 0 in
  let leading_zero := match s1 with
                      | String c _ => Ascii.eqb c "0" && (1 <? n)
                      | EmptyString => false
                      end in
  if (n =? 0) || leading_zero then refuse
  else
    let '(m, k, s3) := match s2 with
                       | String c s' =>
                           if Ascii.eqb c "." then
                             let '(m, k, s3) := digits s' ip 0 in
                             (m, (if k =? 0 then -1 else k), s3)
                           else (ip, 0, s2)
                       | EmptyString => (ip, 0, s2)
                       end in
    if (k <? 0) || negb (at_end s3) then refuse
    else
      let f := if m =? 0 then S754_zero neg else nearest neg m k in
      match f with
      | S754_infinity _ | S754_nan => refuse
      | _ => inl (gabs.mkContainer (anyFloat64 f))
      end.

Definition literal (word s : string) (v : any) : gabs.Container + err :=
  if String.prefix word s &&
     at_end (String.substring (String.length word)
               (String.length s - String.length word) s)
  then inl (gabs.mkContainer v) else refuse.

Definition ParseJSON (raw : bytes) : gabs.Container + err :=
  let s := skip_space raw in
  match s with
  | EmptyString => refuse
  | String c s' =>
      let b := strconv.byte c in
      if b =? 34 then
        match string_body s' with
        | Some (body, rest) =>
            if at_end rest then inl (gabs.mkContainer (anyString body))
            else refuse
        | None => refuse
        end
      else if b =? 110 then literal "null" s anyNil
      else if b =? 116 then literal "true" s (anyBool true)
      else if b =? 102 then literal "false" s (anyBool false)
      else number s
  end.

End scalar.

Definition amd64 : Platform := {|
  gabs_ParseJSON := scalar.ParseJSON;
  int_unrepresentable := fun _ => minInt
|}.

(** ** The specification's vocabulary

    The definitions of this part follow the words of the specification; the
    theorems compare them with the code above. *)

Definition nonEmpty (s : string) : bool :=
  match s with EmptyString => false | _ => true end.

(** "Exactly one Reference variant is set with all its required sub-fields
    non-empty." *)
Definition spec_reference_ok (vf : ValueFrom.t) : bool :=
  match ValueFrom.ConfigMap vf, ValueFrom.Secret vf,
        ValueFrom.KrakenResource vf with
  | Some cm, None, None =>
      nonEmpty (ValueFromConfigMap.Name cm) &&
      nonEmpty (ValueFromConfigMap.Key cm)
  | None, Some sec, None =>
      nonEmpty (ValueFromSecret.Name sec) &&
      nonEmpty (ValueFromSecret.Key sec)
  | None, None, Some kr =>
      nonEmpty (ValueFromKrakenResource.Kind kr) &&
      nonEmpty (ValueFromKrakenResource.Name kr) &&
      nonEmpty (ValueFromKrakenResource.Path kr)
  | _, _, _ => false
  end.

(** "Validate() succeeds iff exactly one of {literal, reference} is set, and
    for reference-only options iff ..." *)
Definition spec_option_ok {A} (literal : option A)
    (reference : option ValueFrom.t) : bool :=
  match literal, reference with
  | Some _, None => true
  | None, Some vf => spec_reference_ok vf
  | _, _ => false
  end.

(** Exactly one variant of the reference is non-nil, whatever it holds. *)
Definition exactlyOneVariant (vf : ValueFrom.t) : Prop :=
  match ValueFrom.ConfigMap vf, ValueFrom.Secret vf,
        ValueFrom.KrakenResource vf with
  | Some _, None, None | None, Some _, None | None, None, Some _ => True
  | _, _, _ => False
  end.

(** Exactly one of literal and reference, the reference having one variant. *)
Definition exactlyOneSource {A} (literal : option A)
    (reference : option ValueFrom.t) : Prop :=
  match literal, reference with
  | Some _, None => True
  | None, Some vf => exactlyOneVariant vf
  | _, _ => False
  end.

(** A config-source, where there is one, passes its own validation. *)
Definition configSourceComplete (reference : option ValueFrom.t) : Prop :=
  match reference with
  | Some vf =>
      match ValueFrom.ConfigMap vf with
      | Some cm => ValueFromConfigMap.Validate cm = None
      | None => True
      end
  | None => True
  end.

(** The errors of the lookups, with the text the code gives them. *)
Definition missingConfigMap (name : string) : err :=
  fmt_Errorf
    ("ConfigMap " +:+ dq +:+ "%s" +:+ dq +:+ " does not exist in DependentValues")
    [opString name].

Definition missingConfigKey (key name : string) : err :=
  fmt_Errorf
    ("key " +:+ dq +:+ "%s" +:+ dq +:+
     " does not exist in DependentValues ConfigMap " +:+ dq +:+ "%s" +:+ dq)
    [opString key; opString name].

Definition missingResourceKind (kind : string) : err :=
  fmt_Errorf
    ("no entry for kind " +:+ dq +:+ "%s" +:+ dq +:+ " in DependentValues")
    [opString kind].

Definition typeMismatch (data : any) (actual expected : reflect.Kind) : err :=
  fmt_Errorf
    ("provided value " +:+ dq +:+ "%s" +:+ dq +:+ " is of type " +:+
     dq +:+ "%s" +:+ dq +:+ "; expected type " +:+ dq +:+ "%s" +:+ dq)
    [opAny data; opKind actual; opKind expected].

(** The references with exactly one variant. *)
Definition configRef (cm : ValueFromConfigMap.t) : ValueFrom.t :=
  ValueFrom.mk (Some cm) None None.
Definition secretRef (sec : ValueFromSecret.t) : ValueFrom.t :=
  ValueFrom.mk None (Some sec) None.
Definition resourceRef (kr : ValueFromKrakenResource.t) : ValueFrom.t :=
  ValueFrom.mk None None (Some kr).

(** Two calls in a row, with both results. *)
Definition twice {S A} (c : Exec S A) : Exec S (A * A) :=
  r1 <- c ;; r2 <- c ;; ret (r1, r2).

(** The length of a string as an integer; the sign and the digits that
    [ParseInt] and [Atoi] split the argument [String c rest] into. *)
Definition len (s : string) : Z := Z.of_nat (String.length s).
Definition signOf (c : ascii) : bool := Ascii.eqb c "-".
Definition digitsOf (c : ascii) (rest : string) : string :=
  if Ascii.eqb c "+" || Ascii.eqb c "-" then rest else String c rest.

(** [bag.resources[kind][name][path]]. *)
Definition resourceEntry (dv : DependentValues.t)
    (krRef : ValueFromKrakenResource.t) : option JSON.t :=
  kind ← DependentValues.FromKrakenResources dv
           !! ValueFromKrakenResource.Kind krRef;
  resource ← kind !! ValueFromKrakenResource.Name krRef;
  resource !! ValueFromKrakenResource.Path krRef.

(** The reflect kind of the values of a type argument. *)
Definition expectedKind (T : TypeArg) : reflect.Kind :=
  match T with T_string => reflect.String | T_float64 => reflect.Float64 end.

(** The [float64] nearest to 3.9, which is 8782019273372467 / 2 ^ 51. *)
Definition float_3_9 : float64 := S754_finite false 8782019273372467 (-51).

(** The JSON document of the string hello, quotes included. *)
Definition payload_hello : bytes := dq +:+ "hello" +:+ dq.

(** The other errors of the resource lookup. *)
Definition missingResourceName (name : string) : err :=
  fmt_Errorf
    ("no entry for resource " +:+ dq +:+ "%s" +:+ dq +:+ " in DependentValues")
    [opString name].

Definition missingResourcePath (path : string) : err :=
  fmt_Errorf
    ("no entry for path " +:+ dq +:+ "%s" +:+ dq +:+ " in DependentValues")
    [opString path].

Definition jsonParseError (e : err) : err :=
  fmt_Errorf "error parsing JSON: %s" [opError e].

(** A result in the Go convention: a value and no error, or an error and no
    value. *)
Definition valueXorError {A} (r : option A * error) : Prop :=
  match r with
  | (Some _, None) | (None, Some _) => True
  | _ => False
  end.

(** The decimal text of an integer: a minus sign for a negative number and
    the digits, most significant first, without leading zeros. *)
Definition digitChar (d : Z) : ascii := ascii_of_N (Z.to_N (48 + d)).

Fixpoint decimal_digits (fuel : nat) (n : Z) (acc : string) : string :=
  match fuel with
  | O => acc
  | S fuel' =>
      let acc' := String (digitChar (n mod 10)) acc in
      if n <? 10 then acc' else decimal_digits fuel' (n / 10) acc'
  end.

Definition decimal (n : Z) : string :=
  if n <? 0 then String "-" (decimal_digits 20 (- n) EmptyString)
  else decimal_digits 20 n EmptyString.

(** The bag with the string [v] stored under [key] of the config source
    [name], the other entries being kept. *)
Definition setConfigValue (name key v : string) (dv : DependentValues.t)
  : DependentValues.t :=
  DependentValues.mk
    (<[name := <[key := v]>
                 (default ∅ (DependentValues.FromConfigMaps dv !! name))]>
       (DependentValues.FromConfigMaps dv))
    (DependentValues.FromKrakenResources dv).

(** A computation that leaves the store as it found it, whatever it
    returns. *)
Definition readOnly {S A} (c : Exec S A) : Prop := forall σ, snd (c σ) = σ.

(** A bag with one config-source entry and one resource entry. *)
Definition sampleBag (value raw : string) : DependentValues.t :=
  DependentValues.mk
    {[ "cfg" := {[ "port" := value ]} ]}
    {[ "Deployment" := {[ "web" := {[ "replicas" := JSON.mk raw ]} ]} ]}.

Definition portRef : ValueFromConfigMap.t := ValueFromConfigMap.mk "cfg" "port".
Definition replicasRef : ValueFromKrakenResource.t :=
  ValueFromKrakenResource.mk "Deployment" "web" "replicas".

(** * Theorems *)

(** ** Validation *)

Lemma nonNilCount_one (vf : ValueFrom.t) :
  ValueFrom.nonNilCount vf = 1 <-> exactlyOneVariant vf.
Proof.
  destruct vf as [[cm|] [sec|] [kr|]]; unfold exactlyOneVariant; cbn;
    split; intros; try lia; try tauto.
Qed.

Lemma ValueFrom_Validate_ok (vf : ValueFrom.t) :
  ValueFrom.Validate vf = None <-> exactlyOneVariant vf.
Proof.
  rewrite <- nonNilCount_one. unfold ValueFrom.Validate.
  destruct (decide (ValueFrom.nonNilCount vf <> 1)) as [Hne|Heq].
  - split; [discriminate | intros; contradiction].
  - split; [intros _; lia | reflexivity].
Qed.

(** The count reported on failure is the number of non-nil variants, and it
    is never 1. *)
Lemma ValueFrom_Validate_error (vf : ValueFrom.t) (e : err) :
  ValueFrom.Validate vf = Some e ->
  e = fmt_Errorf "expected a single value reference but received %d"
        [opInt (ValueFrom.nonNilCount vf)] /\
  ValueFrom.nonNilCount vf <> 1.
Proof.
  unfold ValueFrom.Validate.
  destruct (decide (ValueFrom.nonNilCount vf <> 1)); [|discriminate].
  intros [= <-]. split; [reflexivity | assumption].
Qed.

(** The config-source validation of its own: name and key non-empty. *)
Lemma ValueFromConfigMap_Validate_ok (vfcm : ValueFromConfigMap.t) :
  ValueFromConfigMap.Validate vfcm = None <->
  nonEmpty (ValueFromConfigMap.Name vfcm) = true /\
  nonEmpty (ValueFromConfigMap.Key vfcm) = true.
Proof.
  destruct vfcm as [[|a n] [|b k]]; cbn; split; intros H;
    try discriminate; try (destruct H; discriminate); auto.
Qed.

Lemma Validate_shapes {A} (literal : option A) (reference : option ValueFrom.t) :
  match literal, reference with
  | Some _, Some _ => Some errValidationBothValueAndRef
  | Some _, None => None
  | None, None => Some errValidationNoValueOrRef
  | None, Some vf => ValueFrom.Validate vf
  end = None <-> exactlyOneSource literal reference.
Proof.
  destruct literal, reference; cbn; try (split; [discriminate | tauto]);
    try tauto.
  apply ValueFrom_Validate_ok.
Qed.

(** The option validation never looks into a variant: a config-source with
    an empty name and key passes, although its own [Validate] refuses it. *)
Lemma Validate_ignores_config_fields :
  let cm := ValueFromConfigMap.mk EmptyString EmptyString in
  String.Validate (String.mk None (Some (configRef cm))) = None /\
  Int.Validate (Int.mk None (Some (configRef cm))) = None /\
  ValueFromConfigMap.Validate cm =
    Some (errors_New "ConfigMap name cannot be empty").
Proof. repeat split. Qed.

(** C1, as stated, fails: a reference-only option whose only variant is a
    resource-source with empty kind, name and path passes [Validate],
    although not all required sub-fields of the variant are non-empty. *)
Lemma C1_counterexample :
  let s := String.mk None (Some (resourceRef
             (ValueFromKrakenResource.mk EmptyString EmptyString EmptyString)))
  in ~ (String.Validate s = None <->
        spec_option_ok (String.Value s) (String.ValueFrom s) = true).
Proof. cbn. intros [H _]. specialize (H eq_refl). discriminate. Qed.

(** C1 (amended): for every String and Int option in which a config-source,
    if present, has a non-empty name and key, [Validate()] succeeds if and
    only if exactly one of literal and reference is set and, for a
    reference-only option, exactly one variant of the reference is non-nil
    (the sub-fields of a secret-source or resource-source are not looked at);
    both set fails with the both-value-and-reference error, neither set with
    the no-value-or-reference error, and a reference with zero or several
    variants with an error reporting their number. *)
Theorem C1_Validate_exactly_one_source (s : String.t) (i : Int.t) :
  configSourceComplete (String.ValueFrom s) ->
  configSourceComplete (Int.ValueFrom i) ->
  (String.Validate s = None <->
   exactlyOneSource (String.Value s) (String.ValueFrom s)) /\
  (Int.Validate i = None <->
   exactlyOneSource (Int.Value i) (Int.ValueFrom i)) /\
  (forall v vf,
     String.Validate (String.mk (Some v) (Some vf)) =
       Some errValidationBothValueAndRef /\
     String.Validate (String.mk None None) = Some errValidationNoValueOrRef) /\
  (forall v vf,
     Int.Validate (Int.mk (Some v) (Some vf)) =
       Some errValidationBothValueAndRef /\
     Int.Validate (Int.mk None None) = Some errValidationNoValueOrRef) /\
  (forall vf, ~ exactlyOneVariant vf ->
     let e := fmt_Errorf "expected a single value reference but received %d"
                [opInt (ValueFrom.nonNilCount vf)] in
     String.Validate (String.mk None (Some vf)) = Some e /\
     Int.Validate (Int.mk None (Some vf)) = Some e).
Proof.
  intros _ _. repeat split.
  - apply (Validate_shapes (String.Value s) (String.ValueFrom s)).
  - apply (Validate_shapes (String.Value s) (String.ValueFrom s)).
  - apply (Validate_shapes (Int.Value i) (Int.ValueFrom i)).
  - apply (Validate_shapes (Int.Value i) (Int.ValueFrom i)).
  - cbn. unfold ValueFrom.Validate. rewrite <- nonNilCount_one in H.
    destruct (decide _); [reflexivity | contradiction].
  - cbn. unfold ValueFrom.Validate. rewrite <- nonNilCount_one in H.
    destruct (decide _); [reflexivity | contradiction].
Qed.

Lemma C1_witness :
  (String.Validate (String.mk None (Some (configRef portRef))) = None <->
   exactlyOneSource (@None string) (Some (configRef portRef))) /\
  (Int.Validate (Int.mk (Some 7) None) = None <->
   exactlyOneSource (Some 7) None).
Proof.
  pose proof (C1_Validate_exactly_one_source
                (String.mk None (Some (configRef portRef)))
                (Int.mk (Some 7) None)) as H.
  destruct H as (Hs & Hi & _).
  - reflexivity.
  - exact I.
  - split; [exact Hs | exact Hi].
Defined.

(** ** Resolution only reads the bag *)

Lemma readOnly_ret {S A} (a : A) : readOnly (@ret S A a).
Proof. intros σ. reflexivity. Qed.

Lemma readOnly_panic {S A} (v : string) : readOnly (@panic S A v).
Proof. intros σ. reflexivity. Qed.

Lemma readOnly_gets {S A} (f : S -> A) : readOnly (gets f).
Proof. intros σ. reflexivity. Qed.

Lemma readOnly_bind {S A B} (c : Exec S A) (k : A -> Exec S B) :
  readOnly c -> (forall a, readOnly (k a)) -> readOnly (bind c k).
Proof.
  intros Hc Hk σ. unfold bind. specialize (Hc σ).
  destruct (c σ) as [[a|v] σ']; cbn in Hc; subst σ'.
  - apply Hk.
  - reflexivity.
Qed.

Create HintDb readonly.
#[local] Hint Resolve readOnly_ret readOnly_panic readOnly_gets : readonly.

Lemma readOnly_Type_Kind {S} (t : reflect.Type_) : readOnly (@Type_Kind S t).
Proof. destruct t; cbn; auto with readonly. Qed.

Lemma readOnly_assert {S} (T : TypeArg) (data : any) :
  readOnly (@assert S T data).
Proof. unfold assert. destruct (unbox T data); auto with readonly. Qed.

Lemma readOnly_getValueFromConfigMap {S} cmRef
    (cmVals : S -> gmap string (gmap string string)) :
  readOnly (getValueFromConfigMap cmRef cmVals).
Proof.
  unfold getValueFromConfigMap, mapIndex.
  apply readOnly_bind; [auto with readonly|].
  intros [cm|]; [|auto with readonly].
  destruct (cm !! _); auto with readonly.
Qed.

Lemma readOnly_getValueFromKrakenResource `{Platform} {S} T krRef
    (krVals : S -> gmap string (gmap string (gmap string JSON.t))) :
  readOnly (getValueFromKrakenResource T krRef krVals).
Proof.
  unfold getValueFromKrakenResource, mapIndex.
  apply readOnly_bind; [auto with readonly|].
  intros [kind|]; [|auto with readonly].
  destruct (kind !! _) as [resource|]; [|auto with readonly].
  destruct (resource !! _) as [jsonVal|]; [|auto with readonly].
  destruct (gabs_ParseJSON _) as [c|e]; [|auto with readonly].
  apply readOnly_bind; [apply readOnly_Type_Kind|]. intros expected.
  apply readOnly_bind; [apply readOnly_Type_Kind|]. intros actual.
  destruct (decide _); [auto with readonly|].
  apply readOnly_bind; [apply readOnly_assert | auto with readonly].
Qed.

Lemma readOnly_String_ToApplicableValue `{Platform} (s : String.t) :
  readOnly (String.ToApplicableValue s).
Proof.
  unfold String.ToApplicableValue.
  destruct (String.Value s); [auto with readonly|].
  destruct (String.ValueFrom s) as [vf|]; [|auto with readonly].
  destruct (ValueFrom.ConfigMap vf);
    [apply readOnly_getValueFromConfigMap|].
  destruct (ValueFrom.KrakenResource vf);
    [apply (readOnly_getValueFromKrakenResource T_string)
    | auto with readonly].
Qed.

Lemma readOnly_Int_ToApplicableValue `{Platform} (i : Int.t) :
  readOnly (Int.ToApplicableValue i).
Proof.
  unfold Int.ToApplicableValue.
  destruct (Int.Value i); [auto with readonly|].
  destruct (Int.ValueFrom i) as [vf|]; [|auto with readonly].
  destruct (ValueFrom.ConfigMap vf).
  { apply readOnly_bind; [apply readOnly_getValueFromConfigMap|].
    intros [[valString|] [e|]]; auto with readonly.
    destruct (strconv.Atoi valString) as [val [e|]]; auto with readonly. }
  destruct (ValueFrom.KrakenResource vf); [|auto with readonly].
  apply readOnly_bind;
    [apply (readOnly_getValueFromKrakenResource T_float64)|].
  intros [[valFloat|] [e|]]; auto with readonly.
Qed.

(** A read-only computation run twice in a row gives the same result twice,
    and the store is still the one it started from. *)
Lemma readOnly_twice {S A} (c : Exec S A) (σ : S) :
  readOnly c ->
  twice c σ = match fst (c σ) with
              | Returns r => (Returns (r, r), σ)
              | Panics v => (Panics v, σ)
              end.
Proof.
  intros Hc. unfold twice, bind. pose proof (Hc σ) as E.
  destruct (c σ) as [[r|v] σ'] eqn:E1; cbn in E; subst σ'; cbn.
  - rewrite E1. reflexivity.
  - reflexivity.
Qed.

(** C8: resolution is deterministic and has no side effect.  The bag is the
    store the call runs in: for every option and every bag the call leaves
    the bag as it was, and a second call with the same option on the bag the
    first one left returns the same result (the option is received by value
    and is not part of the store). *)
Theorem C8_resolution_reads_only `{Platform}
    (s : String.t) (i : Int.t) (dv : DependentValues.t) :
  snd (String.ToApplicableValue s dv) = dv /\
  snd (Int.ToApplicableValue i dv) = dv /\
  twice (String.ToApplicableValue s) dv =
    match fst (String.ToApplicableValue s dv) with
    | Returns r => (Returns (r, r), dv)
    | Panics v => (Panics v, dv)
    end /\
  twice (Int.ToApplicableValue i) dv =
    match fst (Int.ToApplicableValue i dv) with
    | Returns r => (Returns (r, r), dv)
    | Panics v => (Panics v, dv)
    end.
Proof.
  repeat split.
  - apply readOnly_String_ToApplicableValue.
  - apply readOnly_Int_ToApplicableValue.
  - apply readOnly_twice, readOnly_String_ToApplicableValue.
  - apply readOnly_twice, readOnly_Int_ToApplicableValue.
Qed.

(** ** Resolution of literals and of options without a source *)

(** C3: an option with a literal resolves to that literal with no error, on
    every bag (the empty one too) and whether or not a reference is present
    as well; no lookup takes place, so that the result is the same on any two
    bags and under any two decoders. *)
Theorem C3_literal_is_returned `{P : Platform}
    (v : string) (n : int) (vf : option ValueFrom.t)
    (dv : DependentValues.t) :
  String.ToApplicableValue (String.mk (Some v) vf) dv =
    (Returns (Some v, None), dv) /\
  Int.ToApplicableValue (Int.mk (Some n) vf) dv =
    (Returns (Some n, None), dv) /\
  String.ToApplicableValue (String.mk (Some v) vf)
    (DependentValues.mk ∅ ∅) =
    (Returns (Some v, None), DependentValues.mk ∅ ∅) /\
  Int.ToApplicableValue (Int.mk (Some n) vf) (DependentValues.mk ∅ ∅) =
    (Returns (Some n, None), DependentValues.mk ∅ ∅) /\
  (forall (Q : Platform) (dv' : DependentValues.t),
     fst (@String.ToApplicableValue Q (String.mk (Some v) vf) dv') =
       fst (@String.ToApplicableValue P (String.mk (Some v) vf) dv) /\
     fst (@Int.ToApplicableValue Q (Int.mk (Some n) vf) dv') =
       fst (@Int.ToApplicableValue P (Int.mk (Some n) vf) dv)).
Proof. repeat split. Qed.

(** C7: an option with neither literal nor reference resolves to a nil
    result and no error, on every bag. *)
Theorem C7_no_source_resolves_to_nil `{Platform} (dv : DependentValues.t) :
  String.ToApplicableValue (String.mk None None) dv =
    (Returns (None, None), dv) /\
  Int.ToApplicableValue (Int.mk None None) dv = (Returns (None, None), dv).
Proof. split; reflexivity. Qed.

(** ** Secret sources *)

(** Materialisation of a reference whose secret-source is set aborts with
    the panic ["Unimplemented"], whatever else is set. *)
Lemma AddToDependencyRequestSpec_secret_panics
    (vf : ValueFrom.t) (sec : ValueFromSecret.t) (kind : reflect.Kind)
    (dr : DependencyRequestSpec.t) :
  ValueFrom.Secret vf = Some sec ->
  fst (ValueFrom.AddToDependencyRequestSpec vf kind dr) =
    Panics "Unimplemented".
Proof.
  destruct vf as [[cm|] sec' [kr|]]; cbn; intros ->; reflexivity.
Qed.

(** C2 at its failing input: with only the secret-source set,
    [AddToDependencyRequestSpec] panics with ["Unimplemented"] and leaves the
    request as it was, but [ToApplicableValue] does not abort: for String and
    for Int, on every bag, it returns a nil result together with the error
    that says the reference holds no non-nil pointer. *)
Theorem C2_secret_resolution_returns_error `{Platform}
    (sec : ValueFromSecret.t) (kind : reflect.Kind)
    (dr : DependencyRequestSpec.t) (dv : DependentValues.t) :
  ValueFrom.AddToDependencyRequestSpec (secretRef sec) kind dr =
    (Panics "Unimplemented", dr) /\
  String.ToApplicableValue (String.mk None (Some (secretRef sec))) dv =
    (Returns (None, Some errNoReference), dv) /\
  Int.ToApplicableValue (Int.mk None (Some (secretRef sec))) dv =
    (Returns (None, Some errNoReference), dv) /\
  ValueFrom.nonNilCount (secretRef sec) = 1.
Proof. destruct dr. repeat split. Qed.

(** ** Materialisation of dependencies *)

(** C9: [AddToDependencyRequestSpec] appends to the caller's request exactly
    one [ConfigMapDependency] with the reference's name and key when the
    config-source is set, and exactly one [KrakenResourceDependency] with
    kind, name, path and the caller's reflect kind when the resource-source
    is set; the list of a variant that is not set is left as it was.  The
    call returns normally unless the secret-source is set. *)
Theorem C9_dependencies_appended
    (vf : ValueFrom.t) (kind : reflect.Kind) (dr : DependencyRequestSpec.t) :
  let r := ValueFrom.AddToDependencyRequestSpec vf kind dr in
  DependencyRequestSpec.ConfigMapDependencies (snd r) =
    (DependencyRequestSpec.ConfigMapDependencies dr ++
     match ValueFrom.ConfigMap vf with
     | Some cm => [ConfigMapDependency.mk (ValueFromConfigMap.Name cm)
                     (ValueFromConfigMap.Key cm)]
     | None => []
     end)%list /\
  DependencyRequestSpec.KrakenResourceDependencies (snd r) =
    (DependencyRequestSpec.KrakenResourceDependencies dr ++
     match ValueFrom.KrakenResource vf with
     | Some kr => [KrakenResourceDependency.mk
                     (ValueFromKrakenResource.Kind kr)
                     (ValueFromKrakenResource.Name kr)
                     (ValueFromKrakenResource.Path kr) kind]
     | None => []
     end)%list /\
  fst r = match ValueFrom.Secret vf with
          | Some _ => Panics "Unimplemented"
          | None => Returns tt
          end.
Proof.
  destruct vf as [[cm|] [sec|] [kr|]], dr as [cms krs]; cbn;
    rewrite ?app_nil_r; repeat split.
Qed.

(** ** Lookup of a config-source *)

Lemma getValueFromConfigMap_eq {S} (cmRef : ValueFromConfigMap.t)
    (cmVals : S -> gmap string (gmap string string)) (σ : S) :
  getValueFromConfigMap cmRef cmVals σ =
    match cmVals σ !! ValueFromConfigMap.Name cmRef with
    | None =>
        (Returns (None, Some (missingConfigMap (ValueFromConfigMap.Name cmRef))),
         σ)
    | Some cm =>
        match cm !! ValueFromConfigMap.Key cmRef with
        | None =>
            (Returns (None, Some (missingConfigKey
                                    (ValueFromConfigMap.Key cmRef)
                                    (ValueFromConfigMap.Name cmRef))), σ)
        | Some val => (Returns (Some val, None), σ)
        end
    end.
Proof.
  unfold getValueFromConfigMap, mapIndex, bind, gets.
  destruct (cmVals σ !! _) as [cm|]; [|reflexivity].
  destruct (cm !! _); reflexivity.
Qed.

Lemma String_config_eq `{Platform} (cm : ValueFromConfigMap.t)
    (dv : DependentValues.t) :
  String.ToApplicableValue (String.mk None (Some (configRef cm))) dv =
    getValueFromConfigMap cm DependentValues.FromConfigMaps dv.
Proof. reflexivity. Qed.

Lemma Int_config_eq `{Platform} (cm : ValueFromConfigMap.t)
    (dv : DependentValues.t) :
  Int.ToApplicableValue (Int.mk None (Some (configRef cm))) dv =
    match getValueFromConfigMap cm DependentValues.FromConfigMaps dv with
    | (Returns (_, Some e), dv') => (Returns (None, Some e), dv')
    | (Returns (None, None), dv') => (Panics nilDereference, dv')
    | (Returns (Some valString, None), dv') =>
        match strconv.Atoi valString with
        | (_, Some e) => (Returns (None, Some e), dv')
        | (val, None) => (Returns (Some val, None), dv')
        end
    | (Panics v, dv') => (Panics v, dv')
    end.
Proof.
  unfold Int.ToApplicableValue, configRef, bind.
  cbn [Int.Value Int.ValueFrom ValueFrom.ConfigMap].
  destruct (getValueFromConfigMap _ _ _) as [[[[valString|] [e|]]|v] dv'];
    try reflexivity.
  destruct (strconv.Atoi valString) as [val [e'|]]; reflexivity.
Qed.

(** The two lookup errors differ, whatever the name and the key. *)
Lemma missing_levels_differ (name key name' : string) :
  missingConfigMap name <> missingConfigKey key name'.
Proof. unfold missingConfigMap, missingConfigKey. discriminate. Qed.

(** C6: a config-source reference whose name is not in the bag fails with
    the error naming the missing ConfigMap; one whose name is there but whose
    key is not in that entry fails with another error, naming the missing key
    and the ConfigMap it was looked up in.  This holds of the lookup and of
    the String and Int resolutions that go through it, and no bag is
    changed. *)
Theorem C6_missing_config_entry `{Platform}
    (cm : ValueFromConfigMap.t) (dv : DependentValues.t) :
  let name := ValueFromConfigMap.Name cm in
  let key := ValueFromConfigMap.Key cm in
  (DependentValues.FromConfigMaps dv !! name = None ->
   let r := (Returns (None, Some (missingConfigMap name)), dv) in
   getValueFromConfigMap cm DependentValues.FromConfigMaps dv = r /\
   String.ToApplicableValue (String.mk None (Some (configRef cm))) dv = r /\
   Int.ToApplicableValue (Int.mk None (Some (configRef cm))) dv =
     (Returns (None, Some (missingConfigMap name)), dv)) /\
  (forall entry,
   DependentValues.FromConfigMaps dv !! name = Some entry ->
   entry !! key = None ->
   let r := (Returns (None, Some (missingConfigKey key name)), dv) in
   getValueFromConfigMap cm DependentValues.FromConfigMaps dv = r /\
   String.ToApplicableValue (String.mk None (Some (configRef cm))) dv = r /\
   Int.ToApplicableValue (Int.mk None (Some (configRef cm))) dv =
     (Returns (None, Some (missingConfigKey key name)), dv)) /\
  missingConfigMap name <> missingConfigKey key name.
Proof.
  intros name key. split; [|split].
  - intros Hname. rewrite Int_config_eq, String_config_eq.
    rewrite getValueFromConfigMap_eq. fold name. rewrite Hname.
    repeat split.
  - intros entry Hname Hkey. rewrite Int_config_eq, String_config_eq.
    rewrite getValueFromConfigMap_eq. fold name key. rewrite Hname, Hkey.
    repeat split.
  - apply missing_levels_differ.
Qed.

Lemma C6_witness :
  (let dv := DependentValues.mk ∅ ∅ in
   Int.ToApplicableValue (H := amd64) (Int.mk None (Some (configRef portRef)))
     dv = (Returns (None, Some (missingConfigMap "cfg")), dv)) /\
  (let dv := sampleBag "8080" "3" in
   String.ToApplicableValue (H := amd64)
     (String.mk None
        (Some (configRef (ValueFromConfigMap.mk "cfg" "host")))) dv =
     (Returns (None, Some (missingConfigKey "host" "cfg")), dv)).
Proof.
  split.
  - apply (C6_missing_config_entry (H := amd64) portRef
             (DependentValues.mk ∅ ∅)). reflexivity.
  - pose proof (C6_missing_config_entry (H := amd64)
                  (ValueFromConfigMap.mk "cfg" "host")
                  (sampleBag "8080" "3")) as (_ & Hkey & _).
    apply (Hkey {[ "port" := "8080" ]}); reflexivity.
Defined.

(** ** Lookup of a resource-source *)

(** Once the entry is found and decoded, the outcome is decided by the
    dynamic type of the decoded value alone. *)
Lemma getValueFromKrakenResource_found `{Platform} (T : TypeArg)
    (krRef : ValueFromKrakenResource.t) (dv : DependentValues.t)
    (jsonVal : JSON.t) (c : gabs.Container) :
  resourceEntry dv krRef = Some jsonVal ->
  gabs_ParseJSON (JSON.Raw jsonVal) = inl c ->
  getValueFromKrakenResource T krRef DependentValues.FromKrakenResources dv =
    (match reflect.TypeOf (gabs.Data c) with
     | None => Panics nilDereference
     | Some t =>
         if decide (reflect.rtype_Kind t = expectedKind T) then
           Returns (unbox T (gabs.Data c), None)
         else
           Returns (None, Some (typeMismatch (gabs.Data c)
                                  (reflect.rtype_Kind t) (expectedKind T)))
     end, dv).
Proof.
  unfold resourceEntry, getValueFromKrakenResource, mapIndex, bind, gets.
  intros Hentry Hparse.
  destruct (DependentValues.FromKrakenResources dv !! _) as [kind|];
    [cbn in Hentry | discriminate].
  destruct (kind !! _) as [resource|]; [cbn in Hentry | discriminate].
  rewrite Hentry, Hparse.
  destruct c as [data].
  destruct T, data; reflexivity.
Qed.

Lemma String_resource_eq `{Platform} (kr : ValueFromKrakenResource.t)
    (dv : DependentValues.t) :
  String.ToApplicableValue (String.mk None (Some (resourceRef kr))) dv =
    getValueFromKrakenResource T_string kr
      DependentValues.FromKrakenResources dv.
Proof. reflexivity. Qed.

Lemma Int_resource_eq `{Platform} (kr : ValueFromKrakenResource.t)
    (dv : DependentValues.t) :
  Int.ToApplicableValue (Int.mk None (Some (resourceRef kr))) dv =
    match getValueFromKrakenResource T_float64 kr
            DependentValues.FromKrakenResources dv with
    | (Returns (_, Some e), dv') => (Returns (None, Some e), dv')
    | (Returns (None, None), dv') => (Panics nilDereference, dv')
    | (Returns (Some valFloat, None), dv') =>
        (Returns (Some (int_of_float64 valFloat), None), dv')
    | (Panics v, dv') => (Panics v, dv')
    end.
Proof.
  unfold Int.ToApplicableValue, resourceRef, bind.
  cbn [Int.Value Int.ValueFrom ValueFrom.ConfigMap ValueFrom.KrakenResource].
  destruct (getValueFromKrakenResource _ _ _ _)
    as [[[[valFloat|] [e|]]|v] dv']; reflexivity.
Qed.

(** C10: resolution of a resource-source reference is not total.  When the
    payload of the entry decodes to JSON null the decoded value is nil,
    [reflect.TypeOf] of it is the nil type, and the call of [Kind()] on it
    panics: the lookup, and the String and Int resolutions through it, end in
    a panic and return neither a type-mismatch error nor any other value. *)
Theorem C10_null_payload_panics `{Platform} (T : TypeArg)
    (kr : ValueFromKrakenResource.t) (dv : DependentValues.t)
    (jsonVal : JSON.t) :
  resourceEntry dv kr = Some jsonVal ->
  gabs_ParseJSON (JSON.Raw jsonVal) = inl (gabs.mkContainer anyNil) ->
  reflect.TypeOf (gabs.Data (gabs.mkContainer anyNil)) = None /\
  getValueFromKrakenResource T kr DependentValues.FromKrakenResources dv =
    (Panics nilDereference, dv) /\
  String.ToApplicableValue (String.mk None (Some (resourceRef kr))) dv =
    (Panics nilDereference, dv) /\
  Int.ToApplicableValue (Int.mk None (Some (resourceRef kr))) dv =
    (Panics nilDereference, dv).
Proof.
  intros Hentry Hparse.
  rewrite Int_resource_eq, String_resource_eq.
  rewrite !(getValueFromKrakenResource_found _ _ _ _ _ Hentry Hparse).
  repeat split.
Qed.

Lemma C10_witness :
  let dv := sampleBag "8080" "null" in
  getValueFromKrakenResource (H := amd64) T_float64 replicasRef
    DependentValues.FromKrakenResources dv = (Panics nilDereference, dv).
Proof.
  intros dv.
  apply (C10_null_payload_panics (H := amd64) T_float64 replicasRef dv
           (JSON.mk "null")); reflexivity.
Defined.

(** ** Conversion of a decoded number to [int] *)

(** [truncate] rounds toward zero: the result has the sign of the float and
    the largest magnitude not above the magnitude [m * 2 ^ e] of the float. *)
Lemma truncate_toward_zero (s : bool) (m : positive) (e z : Z) :
  truncate (S754_finite s m e) = Some z ->
  (if s then z <= 0 else 0 <= z) /\
  (0 <= e -> Z.abs z = Zpos m * 2 ^ e) /\
  (e < 0 -> Z.abs z * 2 ^ (- e) <= Zpos m < (Z.abs z + 1) * 2 ^ (- e)).
Proof.
  unfold truncate. intros [= <-].
  destruct e as [|p|p].
  - destruct s; repeat split; try lia.
  - rewrite Z.shiftl_mul_pow2 by lia.
    assert (0 < 2 ^ Zpos p) by (apply Z.pow_pos_nonneg; lia).
    destruct s; repeat split; try nia; lia.
  - rewrite Z.shiftr_div_pow2 by lia.
    assert (Hp : 0 < 2 ^ Zpos p) by (apply Z.pow_pos_nonneg; lia).
    pose proof (Z.div_pos (Zpos m) (2 ^ Zpos p) ltac:(lia) Hp) as Hq.
    pose proof (Z.mul_div_le (Zpos m) (2 ^ Zpos p) Hp) as Hle.
    pose proof (Z.mul_succ_div_gt (Zpos m) (2 ^ Zpos p) Hp) as Hgt.
    change (- Zneg p) with (Zpos p).
    destruct s; repeat split; intros; try lia;
      rewrite ?Z.abs_opp, Z.abs_eq by lia; nia.
Qed.

(** An Int option on a resource-source whose payload decodes to a number:
    the result is the truncation of that number whenever it fits [int]. *)
Lemma Int_resource_truncates `{Platform}
    (kr : ValueFromKrakenResource.t) (dv : DependentValues.t)
    (jsonVal : JSON.t) (f : float64) (z : Z) :
  resourceEntry dv kr = Some jsonVal ->
  gabs_ParseJSON (JSON.Raw jsonVal) = inl (gabs.mkContainer (anyFloat64 f)) ->
  truncate f = Some z ->
  is_int z = true ->
  Int.ToApplicableValue (Int.mk None (Some (resourceRef kr))) dv =
    (Returns (Some z, None), dv).
Proof.
  intros Hentry Hparse Htr Hint.
  rewrite Int_resource_eq.
  rewrite (getValueFromKrakenResource_found _ _ _ _ _ Hentry Hparse).
  cbn. destruct (decide _) as [_|Hne]; [|contradiction].
  unfold int_of_float64. rewrite Htr, Hint. reflexivity.
Qed.

(** An Int option on a resource-source whose payload decodes to a value that
    is neither a number nor null: a type-mismatch error with the decoded
    value, its kind and the kind [float64]. *)
Lemma Int_resource_mismatch `{Platform}
    (kr : ValueFromKrakenResource.t) (dv : DependentValues.t)
    (jsonVal : JSON.t) (data : any) (t : reflect.rtype) :
  resourceEntry dv kr = Some jsonVal ->
  gabs_ParseJSON (JSON.Raw jsonVal) = inl (gabs.mkContainer data) ->
  reflect.TypeOf data = Some t ->
  t <> reflect.float64_t ->
  Int.ToApplicableValue (Int.mk None (Some (resourceRef kr))) dv =
    (Returns (None, Some (typeMismatch data (reflect.rtype_Kind t)
                            reflect.Float64)), dv).
Proof.
  intros Hentry Hparse Ht Hne.
  rewrite Int_resource_eq.
  rewrite (getValueFromKrakenResource_found _ _ _ _ _ Hentry Hparse).
  cbn [gabs.Data]. rewrite Ht.
  destruct t; try contradiction; cbn;
    (destruct (decide _) as [E|_]; [discriminate E | reflexivity]).
Qed.

(** C4 at its failing input.  On a decoder that decodes the three documents
    as [encoding/json] does, an Int option on a resource-source resolves the
    payload 3.9 to 3 and fails on the payload ["hello"] with the type
    mismatch naming [string] and [float64]; on the payload [null], whose
    shape is not numeric either, it returns no error at all: it panics. *)
Theorem C4_null_payload_is_no_mismatch `{Platform} :
  gabs_ParseJSON "3.9" = inl (gabs.mkContainer (anyFloat64 float_3_9)) ->
  gabs_ParseJSON payload_hello = inl (gabs.mkContainer (anyString "hello")) ->
  gabs_ParseJSON "null" = inl (gabs.mkContainer anyNil) ->
  let i := Int.mk None (Some (resourceRef replicasRef)) in
  Int.ToApplicableValue i (sampleBag "8080" "3.9") =
    (Returns (Some 3, None), sampleBag "8080" "3.9") /\
  Int.ToApplicableValue i (sampleBag "8080" payload_hello) =
    (Returns (None, Some (typeMismatch (anyString "hello") reflect.String
                            reflect.Float64)),
     sampleBag "8080" payload_hello) /\
  Int.ToApplicableValue i (sampleBag "8080" "null") =
    (Panics nilDereference, sampleBag "8080" "null").
Proof.
  intros H39 Hhello Hnull i. repeat split.
  - apply (Int_resource_truncates replicasRef _ (JSON.mk "3.9") float_3_9 3);
      [reflexivity | exact H39 | reflexivity | reflexivity].
  - apply (Int_resource_mismatch replicasRef _ (JSON.mk payload_hello)
             (anyString "hello") reflect.string_t);
      [reflexivity | exact Hhello | reflexivity | discriminate].
  - unfold i. rewrite Int_resource_eq.
    rewrite (getValueFromKrakenResource_found T_float64 replicasRef _
               (JSON.mk "null") (gabs.mkContainer anyNil));
      [reflexivity | reflexivity | exact Hnull].
Qed.

Lemma C4_witness :
  let i := Int.mk None (Some (resourceRef replicasRef)) in
  Int.ToApplicableValue (H := amd64) i (sampleBag "8080" "3.9") =
    (Returns (Some 3, None), sampleBag "8080" "3.9") /\
  Int.ToApplicableValue (H := amd64) i (sampleBag "8080" payload_hello) =
    (Returns (None, Some (typeMismatch (anyString "hello") reflect.String
                            reflect.Float64)),
     sampleBag "8080" payload_hello) /\
  Int.ToApplicableValue (H := amd64) i (sampleBag "8080" "null") =
    (Panics nilDereference, sampleBag "8080" "null").
Proof.
  apply (C4_null_payload_is_no_mismatch (H := amd64)); vm_compute; reflexivity.
Defined.

(** ** Base-10 parsing *)

Lemma byte_range (c : ascii) : 0 <= strconv.byte c < 256.
Proof.
  unfold strconv.byte. pose proof (N_ascii_bounded c). lia.
Qed.

Lemma wrap_int_small (z : Z) : - 2 ^ 63 <= z < 2 ^ 63 -> wrap_int z = z.
Proof.
  intros Hz. unfold wrap_int. rewrite Z.mod_small; lia.
Qed.

Lemma fast_digit_test (b : Z) :
  0 <= b < 256 ->
  (9 <? (b - 48) mod 256) = negb ((48 <=? b) && (b <=? 57)) /\
  ((48 <=? b) && (b <=? 57) = true -> (b - 48) mod 256 = b - 48).
Proof.
  intros Hb. destruct (Z_lt_ge_dec b 48) as [Hlt|Hge].
  - replace ((b - 48) mod 256) with (b + 208).
    2:{ apply (Z.mod_unique _ _ (-1)); lia. }
    split; [|lia]. destruct (48 <=? b) eqn:E; [lia|]. cbn. lia.
  - rewrite Z.mod_small by lia. split; [|reflexivity].
    destruct (48 <=? b) eqn:E1, (b <=? 57) eqn:E2; cbn; lia.
Qed.

Lemma digits_value_bounds (s : string) : forall n v,
  0 <= n -> digits_value s n = Some v ->
  n * 10 ^ len s <= v < (n + 1) * 10 ^ len s.
Proof.
  induction s as [|c s IH]; intros n v Hn; cbn [digits_value].
  - intros [= <-]. unfold len. cbn. lia.
  - pose proof (byte_range c) as Hb.
    destruct ((48 <=? strconv.byte c) && (strconv.byte c <=? 57)) eqn:E;
      [|discriminate].
    intros Hv. apply IH in Hv; [|lia].
    unfold len in *. cbn [String.length]. rewrite Nat2Z.inj_succ.
    rewrite Z.pow_succ_r by lia.
    assert (0 < 10 ^ Z.of_nat (String.length s)) by (apply Z.pow_pos_nonneg; lia).
    nia.
Qed.

Lemma Atoi_loop_digits (s : string) : forall n,
  0 <= n -> (n + 1) * 10 ^ len s <= 2 ^ 63 ->
  strconv.Atoi_loop s n = digits_value s n.
Proof.
  induction s as [|c s IH]; intros n Hn Hbound; cbn [strconv.Atoi_loop digits_value].
  - reflexivity.
  - pose proof (byte_range c) as Hb.
    destruct (fast_digit_test _ Hb) as [Htest Hval]. rewrite Htest.
    destruct ((48 <=? strconv.byte c) && (strconv.byte c <=? 57)) eqn:E; cbn [negb];
      [|reflexivity].
    rewrite Hval by reflexivity.
    unfold len in *. cbn [String.length] in Hbound. rewrite Nat2Z.inj_succ in Hbound.
    rewrite Z.pow_succ_r in Hbound by lia.
    assert (0 < 10 ^ Z.of_nat (String.length s)) by (apply Z.pow_pos_nonneg; lia).
    rewrite wrap_int_small by nia.
    apply IH; nia.
Qed.

Lemma pow10_pos (s : string) : 0 < 10 ^ len s.
Proof. apply Z.pow_pos_nonneg; unfold len; lia. Qed.

Lemma ParseUint_loop_digits (s0 s : string) : forall n,
  0 <= n <= strconv.maxUint64 ->
  match digits_value s n with
  | Some v =>
      strconv.ParseUint_loop s0 s n =
        if v <=? strconv.maxUint64 then (v, None)
        else (strconv.maxUint64, Some (strconv.rangeError "ParseUint" s0))
  | None =>
      strconv.ParseUint_loop s0 s n =
        (0, Some (strconv.syntaxError "ParseUint" s0)) \/
      strconv.ParseUint_loop s0 s n =
        (strconv.maxUint64, Some (strconv.rangeError "ParseUint" s0))
  end.
Proof.
  induction s as [|c s IH]; intros n Hn;
    cbn [strconv.ParseUint_loop digits_value].
  - destruct (n <=? strconv.maxUint64) eqn:E; [reflexivity | lia].
  - pose proof (byte_range c) as Hb.
    destruct ((48 <=? strconv.byte c) && (strconv.byte c <=? 57)) eqn:E;
      [|left; reflexivity].
    set (d := strconv.byte c - 48).
    assert (Hd : 0 <= d <= 9) by (unfold d; lia).
    pose proof (pow10_pos s) as Hpow.
    unfold strconv.maxUint64, wrap_uint64 in *.
    change (2 ^ 64) with 18446744073709551616 in *.
    change ((18446744073709551616 - 1) / 10 + 1) with 1844674407370955162.
    change (18446744073709551616 - 1) with 18446744073709551615 in *.
    destruct (1844674407370955162 <=? n) eqn:Ecut.
    { destruct (digits_value s (n * 10 + d)) as [v|] eqn:Ev; [|right; reflexivity].
      apply digits_value_bounds in Ev; [|lia].
      destruct (v <=? 18446744073709551615) eqn:Ele; [nia | reflexivity]. }
    destruct (Z_le_gt_dec (n * 10 + d) 18446744073709551615) as [Hfit|Hover].
    + rewrite Z.mod_small by lia.
      replace ((n * 10 + d <? n * 10) || (18446744073709551615 <? n * 10 + d))
        with false by (symmetry; apply orb_false_iff; split; lia).
      apply IH. lia.
    + replace ((n * 10 + d) mod 18446744073709551616)
        with (n * 10 + d - 18446744073709551616)
        by (apply (Z.mod_unique _ _ 1); lia).
      replace (n * 10 + d - 18446744073709551616 <? n * 10) with true
        by (symmetry; apply Z.ltb_lt; lia).
      cbn [orb].
      destruct (digits_value s (n * 10 + d)) as [v|] eqn:Ev; [|right; reflexivity].
      apply digits_value_bounds in Ev; [|lia].
      destruct (v <=? 18446744073709551615) eqn:Ele; [nia | reflexivity].
Qed.

Lemma ParseUint_digits (s : string) :
  s <> EmptyString ->
  match digits_value s 0 with
  | Some v =>
      strconv.ParseUint s =
        if v <=? strconv.maxUint64 then (v, None)
        else (strconv.maxUint64, Some (strconv.rangeError "ParseUint" s))
  | None =>
      strconv.ParseUint s = (0, Some (strconv.syntaxError "ParseUint" s)) \/
      strconv.ParseUint s =
        (strconv.maxUint64, Some (strconv.rangeError "ParseUint" s))
  end.
Proof.
  intros Hne. destruct s as [|c s]; [contradiction|].
  apply (ParseUint_loop_digits (String c s) (String c s) 0).
  unfold strconv.maxUint64. lia.
Qed.

Lemma base10_value_sign (c : ascii) (rest : string) :
  base10_value (String c rest) =
    if nonEmpty (digitsOf c rest) then
      (fun v => if signOf c then - v else v) <$>
        digits_value (digitsOf c rest) 0
    else None.
Proof.
  unfold base10_value, digitsOf, signOf.
  destruct (Ascii.eqb c "-") eqn:Em.
  - rewrite orb_true_r. destruct rest; [reflexivity|].
    destruct (digits_value _ 0); reflexivity.
  - destruct (Ascii.eqb c "+") eqn:Ep; cbn [orb].
    + destruct rest; [reflexivity|]. destruct (digits_value _ 0); reflexivity.
    + destruct (digits_value _ 0); reflexivity.
Qed.

Lemma ParseInt_base10 (c : ascii) (rest : string) :
  let s0 := String c rest in
  match base10_value s0 with
  | Some n =>
      if is_int n then strconv.ParseInt s0 = (n, None)
      else exists x,
          strconv.ParseInt s0 = (x, Some (strconv.rangeError "ParseInt" s0))
  | None =>
      exists x e,
        strconv.ParseInt s0 = (x, Some (strconv_NumError "ParseInt" s0 e))
  end.
Proof.
  intros s0. unfold s0 at 1. rewrite base10_value_sign.
  unfold strconv.ParseInt, strconv.ParseInt_range, s0.
  fold (digitsOf c rest). fold (signOf c).
  set (s := digitsOf c rest). set (neg := signOf c). clearbody s neg.
  destruct (string_dec s EmptyString) as [Hs|Hs].
  { rewrite Hs. cbn. eauto. }
  pose proof (ParseUint_digits s Hs) as HU.
  replace (nonEmpty s) with true by (destruct s; [contradiction|reflexivity]).
  destruct (digits_value s 0) as [v|] eqn:Ev; cbn [fmap option_fmap option_map].
  - apply digits_value_bounds in Ev; [|lia].
    pose proof (pow10_pos s) as Hpow.
    assert (Hv : 0 <= v) by nia.
    rewrite HU. unfold strconv.maxUint64.
    assert (Hint : is_int (if neg then - v else v) = true <->
                   - 9223372036854775808 <= (if neg then - v else v)
                     <= 9223372036854775807).
    { unfold is_int, minInt, maxInt. rewrite andb_true_iff, !Z.leb_le.
      change (- 2 ^ 63) with (- 9223372036854775808).
      change (2 ^ 63 - 1) with 9223372036854775807. reflexivity. }
    change (2 ^ 64 - 1) with 18446744073709551615.
    change (2 ^ 63) with 9223372036854775808.
    destruct (v <=? 18446744073709551615) eqn:Efit.
    + destruct (is_int _) eqn:Ei.
      * destruct Hint as [Hint _]. specialize (Hint eq_refl).
        destruct neg; cbn [negb andb].
        -- destruct (9223372036854775808 <? v) eqn:E1; [lia|].
           f_equal. unfold wrap_int.
           change (2 ^ 64) with 18446744073709551616.
           change (2 ^ 63) with 9223372036854775808.
           destruct (Z.eq_dec v 9223372036854775808) as [->|Hne];
             [reflexivity|].
           rewrite (Z.mod_small (v + _)) by lia.
           rewrite Z.mod_small by lia. lia.
        -- destruct (9223372036854775808 <=? v) eqn:E1; [lia|].
           f_equal. apply wrap_int_small.
           change (2 ^ 63) with 9223372036854775808. lia.
      * assert (Hn : ~ (- 9223372036854775808 <= (if neg then - v else v)
                        <= 9223372036854775807))
          by (intros Hc; apply Hint in Hc; discriminate).
        clear Hint.
        destruct neg; cbn [negb andb].
        -- destruct (9223372036854775808 <? v) eqn:E1; [eauto | lia].
        -- destruct (9223372036854775808 <=? v) eqn:E1; [eauto | lia].
    + assert (Hn : is_int (if neg then - v else v) = false).
      { destruct (is_int _) eqn:Ei; [|reflexivity].
        destruct Hint as [Hint _]. specialize (Hint eq_refl).
        destruct neg; lia. }
      rewrite Hn.
      cbn [strconv.rangeError strconv.ErrRange strconv.is_ErrRange].
      cbn [String.eqb Ascii.eqb Bool.eqb negb].
      change (9223372036854775808 <=? 18446744073709551615) with true.
      change (9223372036854775808 <? 18446744073709551615) with true.
      destruct neg; cbn [negb andb]; eauto.
  - destruct HU as [-> | ->].
    + cbn. eauto.
    + cbn [strconv.rangeError strconv.ErrRange strconv.is_ErrRange].
      cbn [String.eqb Ascii.eqb Bool.eqb negb].
      unfold strconv.maxUint64.
      change (2 ^ 63 <=? 2 ^ 64 - 1) with true.
      change (2 ^ 63 <? 2 ^ 64 - 1) with true.
      destruct neg; cbn [negb andb]; eauto.
Qed.

Lemma pow10_le (s : string) (k : Z) :
  len s <= k -> k <= 18 -> 10 ^ len s <= 2 ^ 63.
Proof.
  intros H1 H2. transitivity (10 ^ 18); [|cbv; discriminate].
  apply Z.pow_le_mono_r; unfold len in *; lia.
Qed.

Lemma Atoi_fast_digits (s : string) :
  len s <= 18 ->
  strconv.Atoi_loop s 0 = digits_value s 0 /\
  forall v, digits_value s 0 = Some v -> 0 <= v < 2 ^ 63.
Proof.
  intros Hlen. pose proof (pow10_le s 18 Hlen ltac:(lia)) as Hp.
  pose proof (pow10_pos s) as Hpos.
  split.
  - apply Atoi_loop_digits; lia.
  - intros v Hv. apply digits_value_bounds in Hv; lia.
Qed.

Lemma is_int_small (v : Z) : - 2 ^ 63 < v < 2 ^ 63 -> is_int v = true.
Proof.
  intros Hv. unfold is_int, minInt, maxInt.
  apply andb_true_iff. split; apply Z.leb_le; lia.
Qed.

Lemma Atoi_base10 (s0 : string) :
  match base10_value s0 with
  | Some n =>
      if is_int n then strconv.Atoi s0 = (n, None)
      else exists x,
          strconv.Atoi s0 = (x, Some (strconv.rangeError "Atoi" s0))
  | None =>
      exists x e, strconv.Atoi s0 = (x, Some (strconv_NumError "Atoi" s0 e))
  end.
Proof.
  unfold strconv.Atoi. fold (len s0).
  destruct ((0 <? len s0) && (len s0 <? 19)) eqn:Efast.
  - apply andb_true_iff in Efast as [Hpos Hlt].
    apply Z.ltb_lt in Hpos, Hlt.
    destruct s0 as [|c rest]; [cbn; eauto|].
    rewrite base10_value_sign. unfold digitsOf, signOf.
    rewrite (orb_comm (Ascii.eqb c "+")).
    assert (Hrest : len rest = len (String c rest) - 1)
      by (unfold len; cbn [String.length]; lia).
    destruct (Ascii.eqb c "-" || Ascii.eqb c "+") eqn:Esigned; cbn [andb].
    + fold (len rest). destruct rest as [|d rest']; [cbn; eauto|].
      set (rest := String d rest') in *.
      replace (len rest <? 1) with false
        by (symmetry; apply Z.ltb_ge; unfold len, rest; cbn [String.length]; lia).
      cbn [nonEmpty rest].
      destruct (Atoi_fast_digits rest ltac:(lia)) as [-> Hv].
      destruct (digits_value rest 0) as [v|]; cbn [fmap option_fmap option_map];
        [|eauto].
      specialize (Hv v eq_refl).
      rewrite is_int_small by (destruct (Ascii.eqb c "-"); lia).
      destruct (Ascii.eqb c "-"); [|reflexivity].
      rewrite wrap_int_small by lia. reflexivity.
    + apply orb_false_iff in Esigned as [Em Ep]. rewrite Em.
      cbn [nonEmpty].
      destruct (Atoi_fast_digits (String c rest) ltac:(lia)) as [-> Hv].
      destruct (digits_value (String c rest) 0) as [v|];
        cbn [fmap option_fmap option_map]; [|eauto].
      specialize (Hv v eq_refl).
      rewrite is_int_small by lia. reflexivity.
  - destruct s0 as [|c rest]; [cbn; eauto|].
    pose proof (ParseInt_base10 c rest) as HP. cbv zeta in HP.
    destruct (base10_value (String c rest)) as [n|].
    + destruct (is_int n).
      * rewrite HP. reflexivity.
      * destruct HP as [x ->]. cbn. eauto.
    + destruct HP as (x & e & ->). eauto.
Qed.

(** C5: an Int option on a config-source parses the string it looks up as a
    base-10 integer.  A string that is an optional sign and decimal digits
    resolves to the number it denotes when that number is an [int], and
    fails with the range error of [Atoi] when it is not; a string that is
    not base-10 fails with an [Atoi] error on that string; the string 42
    resolves to 42. *)
Theorem C5_config_value_parsed_base10 `{Platform}
    (cm : ValueFromConfigMap.t) (dv : DependentValues.t)
    (entry : gmap string string) (valString : string) :
  DependentValues.FromConfigMaps dv !! ValueFromConfigMap.Name cm
    = Some entry ->
  entry !! ValueFromConfigMap.Key cm = Some valString ->
  let r := Int.ToApplicableValue (Int.mk None (Some (configRef cm))) dv in
  match base10_value valString with
  | Some n =>
      if is_int n then r = (Returns (Some n, None), dv)
      else r = (Returns (None, Some (strconv.rangeError "Atoi" valString)), dv)
  | None =>
      exists e,
        r = (Returns (None, Some (strconv_NumError "Atoi" valString e)), dv)
  end /\
  (valString = "42" -> r = (Returns (Some 42, None), dv)).
Proof.
  intros Hname Hkey r.
  assert (Hr : r = match strconv.Atoi valString with
                   | (_, Some e) => (Returns (None, Some e), dv)
                   | (val, None) => (Returns (Some val, None), dv)
                   end).
  { unfold r. rewrite Int_config_eq, getValueFromConfigMap_eq.
    rewrite Hname, Hkey. reflexivity. }
  split.
  - pose proof (Atoi_base10 valString) as HA.
    destruct (base10_value valString) as [n|].
    + destruct (is_int n).
      * rewrite Hr, HA. reflexivity.
      * destruct HA as [x HA]. rewrite Hr, HA. reflexivity.
    + destruct HA as (x & e & HA). exists e. rewrite Hr, HA. reflexivity.
  - intros ->. rewrite Hr. reflexivity.
Qed.

Lemma C5_witness :
  let dv := sampleBag "42" "3.9" in
  Int.ToApplicableValue (H := amd64) (Int.mk None (Some (configRef portRef)))
    dv = (Returns (Some 42, None), dv).
Proof.
  intros dv.
  apply (C5_config_value_parsed_base10 (H := amd64) portRef dv
           {[ "port" := "42" ]} "42"); reflexivity.
Defined.

(** ** The scenarios of the specification *)

(** The nearest [float64] to the decimal 3.9 is [float_3_9], and the decoder
    finds it. *)
Example nearest_3_9 :
  scalar.nearest false 39 1 = float_3_9 /\
  scalar.ParseJSON "3.9" = inl (gabs.mkContainer (anyFloat64 float_3_9)) /\
  truncate float_3_9 = Some 3.
Proof. repeat split. Qed.

(** A config-source [cfg]/[port] holding 8080 resolves to the integer 8080. *)
Example scenario_port :
  let i := Int.mk None (Some (configRef portRef)) in
  Int.Validate i = None /\
  Int.ToApplicableValue (H := amd64) i (sampleBag "8080" "3") =
    (Returns (Some 8080, None), sampleBag "8080" "3").
Proof. split; reflexivity. Qed.

(** A resource-source of kind Deployment on a bag without that kind fails
    with the error naming the kind. *)
Example scenario_missing_kind :
  let s := String.mk None (Some (resourceRef replicasRef)) in
  let dv := DependentValues.mk {[ "cfg" := {[ "port" := "8080" ]} ]} ∅ in
  String.Validate s = None /\
  String.ToApplicableValue (H := amd64) s dv =
    (Returns (None, Some (missingResourceKind "Deployment")), dv).
Proof. split; reflexivity. Qed.

(** Truncation is toward zero on negative numbers too, and a number outside
    the range of [int] is not truncated but left to the platform. *)
Example conversion_samples :
  Int.ToApplicableValue (H := amd64)
    (Int.mk None (Some (resourceRef replicasRef))) (sampleBag "8080" "-3.9") =
    (Returns (Some (-3), None), sampleBag "8080" "-3.9") /\
  Int.ToApplicableValue (H := amd64)
    (Int.mk None (Some (resourceRef replicasRef)))
    (sampleBag "8080" "10000000000000000000") =
    (Returns (Some minInt, None), sampleBag "8080" "10000000000000000000").
Proof. split; vm_compute; reflexivity. Qed.

(** * Further properties of the package *)

(** ** Validation of a config-source *)

(** X1: the validation of a config-source succeeds exactly when its name and
    its key are both non-empty; the name is checked first, so that an empty
    name is reported whatever the key, and an empty key only under a
    non-empty name. *)
Theorem X1_config_source_validation (vfcm : ValueFromConfigMap.t) :
  (ValueFromConfigMap.Validate vfcm = None <->
   ValueFromConfigMap.Name vfcm <> EmptyString /\
   ValueFromConfigMap.Key vfcm <> EmptyString) /\
  (ValueFromConfigMap.Name vfcm = EmptyString ->
   ValueFromConfigMap.Validate vfcm =
     Some (errors_New "ConfigMap name cannot be empty")) /\
  (ValueFromConfigMap.Name vfcm <> EmptyString ->
   ValueFromConfigMap.Key vfcm = EmptyString ->
   ValueFromConfigMap.Validate vfcm =
     Some (errors_New "ConfigMap key cannot be empty")).
Proof.
  unfold ValueFromConfigMap.Validate.
  destruct (decide (ValueFromConfigMap.Name vfcm = EmptyString)) as [Hn|Hn];
    destruct (decide (ValueFromConfigMap.Key vfcm = EmptyString)) as [Hk|Hk];
    repeat split; intros; try tauto; try discriminate;
    try (destruct H; contradiction).
Qed.

Lemma X1_witness :
  ValueFromConfigMap.Validate (ValueFromConfigMap.mk EmptyString "port") =
    Some (errors_New "ConfigMap name cannot be empty") /\
  ValueFromConfigMap.Validate (ValueFromConfigMap.mk "cfg" EmptyString) =
    Some (errors_New "ConfigMap key cannot be empty").
Proof.
  split.
  - apply (X1_config_source_validation
             (ValueFromConfigMap.mk EmptyString "port")). reflexivity.
  - apply (X1_config_source_validation
             (ValueFromConfigMap.mk "cfg" EmptyString));
      [discriminate | reflexivity].
Defined.

(** ** Lookup of a resource-source: the three levels, the decoding *)

(** The lookup walks kind, name and path in this order and stops at the
    first level that is missing. *)
Lemma getValueFromKrakenResource_levels `{Platform} (T : TypeArg)
    (kr : ValueFromKrakenResource.t) (dv : DependentValues.t) :
  match DependentValues.FromKrakenResources dv
          !! ValueFromKrakenResource.Kind kr with
  | None =>
      getValueFromKrakenResource T kr DependentValues.FromKrakenResources dv =
        (Returns (None, Some (missingResourceKind
                                (ValueFromKrakenResource.Kind kr))), dv)
  | Some byName =>
      match byName !! ValueFromKrakenResource.Name kr with
      | None =>
          getValueFromKrakenResource T kr
            DependentValues.FromKrakenResources dv =
            (Returns (None, Some (missingResourceName
                                    (ValueFromKrakenResource.Name kr))), dv)
      | Some byPath =>
          match byPath !! ValueFromKrakenResource.Path kr with
          | None =>
              getValueFromKrakenResource T kr
                DependentValues.FromKrakenResources dv =
                (Returns (None, Some (missingResourcePath
                                        (ValueFromKrakenResource.Path kr))),
                 dv)
          | Some jsonVal => resourceEntry dv kr = Some jsonVal
          end
      end
  end.
Proof.
  unfold getValueFromKrakenResource, resourceEntry, mapIndex, bind, gets.
  destruct (DependentValues.FromKrakenResources dv !! _) as [byName|];
    [cbn | reflexivity].
  destruct (byName !! _) as [byPath|]; [cbn | reflexivity].
  destruct (byPath !! _); reflexivity.
Qed.

(** An error of the lookup is the error of the String and of the Int
    resolution through it. *)
Lemma resource_error_passed_on `{Platform} (kr : ValueFromKrakenResource.t)
    (dv : DependentValues.t) (e : err) :
  (forall T, getValueFromKrakenResource T kr
               DependentValues.FromKrakenResources dv =
             (Returns (None, Some e), dv)) ->
  String.ToApplicableValue (String.mk None (Some (resourceRef kr))) dv =
    (Returns (None, Some e), dv) /\
  Int.ToApplicableValue (Int.mk None (Some (resourceRef kr))) dv =
    (Returns (None, Some e), dv).
Proof.
  intros He. rewrite String_resource_eq, Int_resource_eq, !He. split; reflexivity.
Qed.

Lemma resource_errors_differ (kind name path : string) :
  missingResourceKind kind <> missingResourceName name /\
  missingResourceKind kind <> missingResourcePath path /\
  missingResourceName name <> missingResourcePath path.
Proof. repeat split; discriminate. Qed.

(** X2: a resource-source reference fails with an error naming the kind
    when the bag has no entry for the kind, with an error naming the
    resource when the kind is there but not the name, and with an error
    naming the path when only the path is missing.  The three errors differ
    from each other, no payload is decoded, and the String and the Int
    resolution return the error of the lookup. *)
Theorem X2_missing_resource_entry `{Platform}
    (kr : ValueFromKrakenResource.t) (dv : DependentValues.t) :
  let kind := ValueFromKrakenResource.Kind kr in
  let name := ValueFromKrakenResource.Name kr in
  let path := ValueFromKrakenResource.Path kr in
  let fails := fun e =>
    (forall T, getValueFromKrakenResource T kr
                 DependentValues.FromKrakenResources dv =
               (Returns (None, Some e), dv)) /\
    String.ToApplicableValue (String.mk None (Some (resourceRef kr))) dv =
      (Returns (None, Some e), dv) /\
    Int.ToApplicableValue (Int.mk None (Some (resourceRef kr))) dv =
      (Returns (None, Some e), dv) in
  (DependentValues.FromKrakenResources dv !! kind = None ->
   fails (missingResourceKind kind)) /\
  (forall byName,
   DependentValues.FromKrakenResources dv !! kind = Some byName ->
   byName !! name = None ->
   fails (missingResourceName name)) /\
  (forall byName byPath,
   DependentValues.FromKrakenResources dv !! kind = Some byName ->
   byName !! name = Some byPath ->
   byPath !! path = None ->
   fails (missingResourcePath path)) /\
  missingResourceKind kind <> missingResourceName name /\
  missingResourceKind kind <> missingResourcePath path /\
  missingResourceName name <> missingResourcePath path.
Proof.
  intros kind name path fails.
  assert (Hfails : forall e,
             (forall T, getValueFromKrakenResource T kr
                          DependentValues.FromKrakenResources dv =
                        (Returns (None, Some e), dv)) -> fails e).
  { intros e He. split; [exact He | apply resource_error_passed_on, He]. }
  split; [|split; [|split]].
  - intros Hkind. apply Hfails. intros T.
    pose proof (getValueFromKrakenResource_levels T kr dv) as L.
    fold kind in L. rewrite Hkind in L. exact L.
  - intros byName Hkind Hname. apply Hfails. intros T.
    pose proof (getValueFromKrakenResource_levels T kr dv) as L.
    fold kind name in L. rewrite Hkind, Hname in L. exact L.
  - intros byName byPath Hkind Hname Hpath. apply Hfails. intros T.
    pose proof (getValueFromKrakenResource_levels T kr dv) as L.
    fold kind name path in L. rewrite Hkind, Hname, Hpath in L. exact L.
  - apply resource_errors_differ.
Qed.

Lemma X2_witness :
  let dv := sampleBag "8080" "3" in
  String.ToApplicableValue (H := amd64)
    (String.mk None (Some (resourceRef
       (ValueFromKrakenResource.mk "Service" "web" "replicas")))) dv =
    (Returns (None, Some (missingResourceKind "Service")), dv) /\
  Int.ToApplicableValue (H := amd64)
    (Int.mk None (Some (resourceRef
       (ValueFromKrakenResource.mk "Deployment" "db" "replicas")))) dv =
    (Returns (None, Some (missingResourceName "db")), dv) /\
  Int.ToApplicableValue (H := amd64)
    (Int.mk None (Some (resourceRef
       (ValueFromKrakenResource.mk "Deployment" "web" "image")))) dv =
    (Returns (None, Some (missingResourcePath "image")), dv).
Proof.
  intros dv. split; [|split].
  - pose proof (X2_missing_resource_entry (H := amd64)
                  (ValueFromKrakenResource.mk "Service" "web" "replicas") dv)
      as (Hk & _).
    apply Hk. reflexivity.
  - pose proof (X2_missing_resource_entry (H := amd64)
                  (ValueFromKrakenResource.mk "Deployment" "db" "replicas") dv)
      as (_ & Hn & _).
    apply (Hn {[ "web" := {[ "replicas" := JSON.mk "3" ]} ]}); reflexivity.
  - pose proof (X2_missing_resource_entry (H := amd64)
                  (ValueFromKrakenResource.mk "Deployment" "web" "image") dv)
      as (_ & _ & Hp & _).
    apply (Hp {[ "web" := {[ "replicas" := JSON.mk "3" ]} ]}
              {[ "replicas" := JSON.mk "3" ]}); reflexivity.
Defined.

Lemma getValueFromKrakenResource_undecodable `{Platform} (T : TypeArg)
    (kr : ValueFromKrakenResource.t) (dv : DependentValues.t)
    (jsonVal : JSON.t) (e : err) :
  resourceEntry dv kr = Some jsonVal ->
  gabs_ParseJSON (JSON.Raw jsonVal) = inr e ->
  getValueFromKrakenResource T kr DependentValues.FromKrakenResources dv =
    (Returns (None, Some (jsonParseError e)), dv).
Proof.
  unfold resourceEntry, getValueFromKrakenResource, mapIndex, bind, gets.
  intros Hentry Hparse.
  destruct (DependentValues.FromKrakenResources dv !! _) as [kind|];
    [cbn in Hentry | discriminate].
  destruct (kind !! _) as [resource|]; [cbn in Hentry | discriminate].
  rewrite Hentry, Hparse. reflexivity.
Qed.

(** X3: when the payload of the entry is not a JSON document the decoder
    accepts, the lookup, the String and the Int resolution all return the
    error of the decoder wrapped as a parsing error, and no value; they do
    not panic. *)
Theorem X3_undecodable_payload `{Platform}
    (kr : ValueFromKrakenResource.t) (dv : DependentValues.t)
    (jsonVal : JSON.t) (e : err) :
  resourceEntry dv kr = Some jsonVal ->
  gabs_ParseJSON (JSON.Raw jsonVal) = inr e ->
  (forall T, getValueFromKrakenResource T kr
               DependentValues.FromKrakenResources dv =
             (Returns (None, Some (jsonParseError e)), dv)) /\
  String.ToApplicableValue (String.mk None (Some (resourceRef kr))) dv =
    (Returns (None, Some (jsonParseError e)), dv) /\
  Int.ToApplicableValue (Int.mk None (Some (resourceRef kr))) dv =
    (Returns (None, Some (jsonParseError e)), dv).
Proof.
  intros Hentry Hparse.
  assert (He : forall T, getValueFromKrakenResource T kr
                 DependentValues.FromKrakenResources dv =
               (Returns (None, Some (jsonParseError e)), dv))
    by (intros T; apply (getValueFromKrakenResource_undecodable T kr dv jsonVal);
        assumption).
  split; [exact He | apply resource_error_passed_on, He].
Qed.

Lemma X3_witness :
  let dv := sampleBag "8080" "3.9.1" in
  Int.ToApplicableValue (H := amd64)
    (Int.mk None (Some (resourceRef replicasRef))) dv =
    (Returns (None, Some (jsonParseError
       (json_SyntaxError "invalid or unsupported document" 0))), dv).
Proof.
  intros dv.
  apply (X3_undecodable_payload (H := amd64) replicasRef dv
           (JSON.mk "3.9.1")); reflexivity.
Defined.

(** X4: a String option on a resource-source returns the decoded string as
    it is, the empty string included, when the payload is a JSON string;
    when it is a number, a boolean, an array or an object nothing is
    converted: the resolution fails with the type mismatch naming the kind
    of the payload and [string]. *)
Theorem X4_string_from_resource `{Platform}
    (kr : ValueFromKrakenResource.t) (dv : DependentValues.t)
    (jsonVal : JSON.t) (data : any) :
  resourceEntry dv kr = Some jsonVal ->
  gabs_ParseJSON (JSON.Raw jsonVal) = inl (gabs.mkContainer data) ->
  let r := String.ToApplicableValue
             (String.mk None (Some (resourceRef kr))) dv in
  match data with
  | anyString s => r = (Returns (Some s, None), dv)
  | anyFloat64 _ =>
      r = (Returns (None, Some (typeMismatch data reflect.Float64
                                  reflect.String)), dv)
  | anyBool _ =>
      r = (Returns (None, Some (typeMismatch data reflect.Bool
                                  reflect.String)), dv)
  | anySlice _ =>
      r = (Returns (None, Some (typeMismatch data reflect.Slice
                                  reflect.String)), dv)
  | anyMap _ =>
      r = (Returns (None, Some (typeMismatch data reflect.Map
                                  reflect.String)), dv)
  | anyNil => r = (Panics nilDereference, dv)
  end.
Proof.
  intros Hentry Hparse r. unfold r.
  rewrite String_resource_eq.
  rewrite (getValueFromKrakenResource_found _ _ _ _ _ Hentry Hparse).
  destruct data; reflexivity.
Qed.

Lemma X4_witness :
  String.ToApplicableValue (H := amd64)
    (String.mk None (Some (resourceRef replicasRef)))
    (sampleBag "8080" payload_hello) =
    (Returns (Some "hello", None), sampleBag "8080" payload_hello) /\
  String.ToApplicableValue (H := amd64)
    (String.mk None (Some (resourceRef replicasRef)))
    (sampleBag "8080" "3") =
    (Returns (None, Some (typeMismatch (anyFloat64 (S754_finite false
                            6755399441055744 (-51)))
                            reflect.Float64 reflect.String)),
     sampleBag "8080" "3").
Proof.
  split.
  - apply (X4_string_from_resource (H := amd64) replicasRef
             (sampleBag "8080" payload_hello) (JSON.mk payload_hello)
             (anyString "hello")); reflexivity.
  - apply (X4_string_from_resource (H := amd64) replicasRef
             (sampleBag "8080" "3") (JSON.mk "3")
             (anyFloat64 (S754_finite false 6755399441055744 (-51))));
      reflexivity.
Defined.

(** X5: an Int option on a resource-source whose payload decodes to a
    finite number resolves, when the integral part of the number is an
    [int], to that integral part: it has the sign of the number and the
    largest magnitude not above the magnitude [m * 2 ^ e] of the number, so
    that the conversion rounds toward zero for negative numbers as well. *)
Theorem X5_int_from_resource_truncates `{Platform}
    (kr : ValueFromKrakenResource.t) (dv : DependentValues.t)
    (jsonVal : JSON.t) (s : bool) (m : positive) (e z : Z) :
  resourceEntry dv kr = Some jsonVal ->
  gabs_ParseJSON (JSON.Raw jsonVal) =
    inl (gabs.mkContainer (anyFloat64 (S754_finite s m e))) ->
  truncate (S754_finite s m e) = Some z ->
  is_int z = true ->
  Int.ToApplicableValue (Int.mk None (Some (resourceRef kr))) dv =
    (Returns (Some z, None), dv) /\
  (if s then z <= 0 else 0 <= z) /\
  (0 <= e -> Z.abs z = Zpos m * 2 ^ e) /\
  (e < 0 -> Z.abs z * 2 ^ (- e) <= Zpos m < (Z.abs z + 1) * 2 ^ (- e)).
Proof.
  intros Hentry Hparse Htr Hint. split.
  - apply (Int_resource_truncates kr dv jsonVal (S754_finite s m e) z);
      assumption.
  - apply truncate_toward_zero, Htr.
Qed.

Lemma X5_witness :
  let dv := sampleBag "8080" "-3.9" in
  Int.ToApplicableValue (H := amd64)
    (Int.mk None (Some (resourceRef replicasRef))) dv =
    (Returns (Some (-3), None), dv).
Proof.
  intros dv.
  apply (X5_int_from_resource_truncates (H := amd64) replicasRef dv
           (JSON.mk "-3.9") true 8782019273372467 (-51) (-3)); reflexivity.
Defined.

(** X6: an Int option on a resource-source converts numbers only.  A
    payload that decodes to a string, a boolean, an array or an object
    fails with the type mismatch naming its kind and [float64]; a JSON
    string of digits is not parsed, unlike the string of a config-source. *)
Theorem X6_int_from_resource_mismatch `{Platform}
    (kr : ValueFromKrakenResource.t) (dv : DependentValues.t)
    (jsonVal : JSON.t) (data : any) :
  resourceEntry dv kr = Some jsonVal ->
  gabs_ParseJSON (JSON.Raw jsonVal) = inl (gabs.mkContainer data) ->
  let r := Int.ToApplicableValue (Int.mk None (Some (resourceRef kr))) dv in
  match data with
  | anyString _ =>
      r = (Returns (None, Some (typeMismatch data reflect.String
                                  reflect.Float64)), dv)
  | anyBool _ =>
      r = (Returns (None, Some (typeMismatch data reflect.Bool
                                  reflect.Float64)), dv)
  | anySlice _ =>
      r = (Returns (None, Some (typeMismatch data reflect.Slice
                                  reflect.Float64)), dv)
  | anyMap _ =>
      r = (Returns (None, Some (typeMismatch data reflect.Map
                                  reflect.Float64)), dv)
  | anyFloat64 f => r = (Returns (Some (int_of_float64 f), None), dv)
  | anyNil => r = (Panics nilDereference, dv)
  end.
Proof.
  intros Hentry Hparse r. unfold r.
  rewrite Int_resource_eq.
  rewrite (getValueFromKrakenResource_found _ _ _ _ _ Hentry Hparse).
  destruct data; reflexivity.
Qed.

Lemma X6_witness :
  let raw := dq +:+ "42" +:+ dq in
  Int.ToApplicableValue (H := amd64)
    (Int.mk None (Some (resourceRef replicasRef))) (sampleBag "42" raw) =
    (Returns (None, Some (typeMismatch (anyString "42") reflect.String
                            reflect.Float64)), sampleBag "42" raw) /\
  Int.ToApplicableValue (H := amd64)
    (Int.mk None (Some (configRef portRef))) (sampleBag "42" raw) =
    (Returns (Some 42, None), sampleBag "42" raw).
Proof.
  intros raw. split; [|reflexivity].
  apply (X6_int_from_resource_mismatch (H := amd64) replicasRef
           (sampleBag "42" raw) (JSON.mk raw) (anyString "42")); reflexivity.
Defined.

(** ** The shape of a result *)

Lemma getValueFromConfigMap_shape {S} (cm : ValueFromConfigMap.t)
    (cmVals : S -> gmap string (gmap string string)) (σ : S) :
  exists r, getValueFromConfigMap cm cmVals σ = (Returns r, σ) /\
            valueXorError r.
Proof.
  rewrite getValueFromConfigMap_eq.
  destruct (cmVals σ !! _) as [entry|]; [|eexists; split; [reflexivity|exact I]].
  destruct (entry !! _); eexists; (split; [reflexivity | exact I]).
Qed.

Lemma getValueFromKrakenResource_shape `{Platform} (T : TypeArg)
    (kr : ValueFromKrakenResource.t) (dv : DependentValues.t) :
  match fst (getValueFromKrakenResource T kr
               DependentValues.FromKrakenResources dv) with
  | Returns r => valueXorError r
  | Panics v => v = nilDereference
  end.
Proof.
  unfold getValueFromKrakenResource, mapIndex, bind, gets.
  destruct (DependentValues.FromKrakenResources dv !! _) as [kind|];
    [|exact I].
  destruct (kind !! _) as [resource|]; [|exact I].
  destruct (resource !! _) as [jsonVal|]; [|exact I].
  destruct (gabs_ParseJSON _) as [[data]|e]; [|exact I].
  destruct T, data; cbn; first [exact I | reflexivity].
Qed.

Lemma String_ToApplicableValue_shape `{Platform}
    (s : String.t) (dv : DependentValues.t) :
  match fst (String.ToApplicableValue s dv) with
  | Returns (None, None) => String.Value s = None /\ String.ValueFrom s = None
  | Returns r => valueXorError r
  | Panics v => v = nilDereference
  end.
Proof.
  destruct s as [[v|] [[[cm|] sec [kr|]]|]]; try (cbn; tauto).
  - change (String.ToApplicableValue _ dv) with
      (getValueFromConfigMap cm DependentValues.FromConfigMaps dv).
    destruct (getValueFromConfigMap_shape cm
                DependentValues.FromConfigMaps dv) as (r & -> & Hr).
    destruct r as [[?|] [?|]]; cbn in *; tauto.
  - change (String.ToApplicableValue _ dv) with
      (getValueFromConfigMap cm DependentValues.FromConfigMaps dv).
    destruct (getValueFromConfigMap_shape cm
                DependentValues.FromConfigMaps dv) as (r & -> & Hr).
    destruct r as [[?|] [?|]]; cbn in *; tauto.
  - change (String.ToApplicableValue _ dv) with
      (getValueFromKrakenResource T_string kr
         DependentValues.FromKrakenResources dv).
    pose proof (getValueFromKrakenResource_shape T_string kr dv) as Hs.
    destruct (fst _) as [[[?|] [?|]]|?]; cbn in *; tauto.
Qed.

Lemma Int_ToApplicableValue_shape `{Platform}
    (i : Int.t) (dv : DependentValues.t) :
  match fst (Int.ToApplicableValue i dv) with
  | Returns (None, None) => Int.Value i = None /\ Int.ValueFrom i = None
  | Returns r => valueXorError r
  | Panics v => v = nilDereference
  end.
Proof.
  destruct i as [[v|] [[[cm|] sec [kr|]]|]]; try (cbn; tauto).
  - change (Int.ToApplicableValue _ dv) with
      (Int.ToApplicableValue (Int.mk None (Some (configRef cm))) dv).
    rewrite Int_config_eq.
    destruct (getValueFromConfigMap_shape cm
                DependentValues.FromConfigMaps dv) as (r & -> & Hr).
    destruct r as [[valString|] [?|]]; cbn in *; try tauto.
    destruct (strconv.Atoi valString) as [val [?|]]; cbn; tauto.
  - change (Int.ToApplicableValue _ dv) with
      (Int.ToApplicableValue (Int.mk None (Some (configRef cm))) dv).
    rewrite Int_config_eq.
    destruct (getValueFromConfigMap_shape cm
                DependentValues.FromConfigMaps dv) as (r & -> & Hr).
    destruct r as [[valString|] [?|]]; cbn in *; try tauto.
    destruct (strconv.Atoi valString) as [val [?|]]; cbn; tauto.
  - change (Int.ToApplicableValue _ dv) with
      (Int.ToApplicableValue (Int.mk None (Some (resourceRef kr))) dv).
    rewrite Int_resource_eq.
    pose proof (getValueFromKrakenResource_shape T_float64 kr dv) as Hs.
    destruct (getValueFromKrakenResource _ _ _ _)
      as [[[[?|] [?|]]|?] dv']; cbn in *; tauto.
Qed.

(** X7: the results of resolution follow the Go convention.  For every
    String and Int option, bag and decoder, [ToApplicableValue] returns a
    value without error or an error without value, and never both; the one
    result with neither is that of an option with neither literal nor
    reference.  The only panic is the nil dereference of the resource
    lookup. *)
Theorem X7_value_or_error `{Platform}
    (s : String.t) (i : Int.t) (dv : DependentValues.t) :
  match fst (String.ToApplicableValue s dv) with
  | Returns (None, None) => String.Value s = None /\ String.ValueFrom s = None
  | Returns r => valueXorError r
  | Panics v => v = nilDereference
  end /\
  match fst (Int.ToApplicableValue i dv) with
  | Returns (None, None) => Int.Value i = None /\ Int.ValueFrom i = None
  | Returns r => valueXorError r
  | Panics v => v = nilDereference
  end.
Proof.
  split;
    [apply String_ToApplicableValue_shape | apply Int_ToApplicableValue_shape].
Qed.

(** ** Which source is read *)

Lemma getValueFromKrakenResource_frame `{Platform} (T : TypeArg)
    (kr : ValueFromKrakenResource.t)
    (cms cms' : gmap string (gmap string string))
    (krs : gmap string (gmap string (gmap string JSON.t))) :
  fst (getValueFromKrakenResource T kr DependentValues.FromKrakenResources
         (DependentValues.mk cms krs)) =
  fst (getValueFromKrakenResource T kr DependentValues.FromKrakenResources
         (DependentValues.mk cms' krs)).
Proof.
  unfold getValueFromKrakenResource, mapIndex, bind, gets. cbn.
  destruct (krs !! _) as [kind|]; [|reflexivity].
  destruct (kind !! _) as [resource|]; [|reflexivity].
  destruct (resource !! _) as [jsonVal|]; [|reflexivity].
  destruct (gabs_ParseJSON _) as [[data]|e]; [|reflexivity].
  destruct T, data; reflexivity.
Qed.

(** X8: a reference is resolved from its config-source whenever it has
    one: the secret-source and resource-source beside it, the resources of
    the bag and the decoder have no influence on the result.  Without a
    config-source it is resolved from its resource-source, and then the
    secret-source beside it and the config sources of the bag have no
    influence. *)
Theorem X8_source_priority (P Q : Platform)
    (cm : ValueFromConfigMap.t) (kr : ValueFromKrakenResource.t)
    (sec : option ValueFromSecret.t)
    (other : option ValueFromKrakenResource.t)
    (cms cms' : gmap string (gmap string string))
    (krs krs' : gmap string (gmap string (gmap string JSON.t))) :
  fst (@String.ToApplicableValue P
         (String.mk None (Some (ValueFrom.mk (Some cm) sec other)))
         (DependentValues.mk cms krs)) =
  fst (@String.ToApplicableValue Q (String.mk None (Some (configRef cm)))
         (DependentValues.mk cms krs')) /\
  fst (@Int.ToApplicableValue P
         (Int.mk None (Some (ValueFrom.mk (Some cm) sec other)))
         (DependentValues.mk cms krs)) =
  fst (@Int.ToApplicableValue Q (Int.mk None (Some (configRef cm)))
         (DependentValues.mk cms krs')) /\
  fst (@String.ToApplicableValue P
         (String.mk None (Some (ValueFrom.mk None sec (Some kr))))
         (DependentValues.mk cms krs)) =
  fst (@String.ToApplicableValue P (String.mk None (Some (resourceRef kr)))
         (DependentValues.mk cms' krs)) /\
  fst (@Int.ToApplicableValue P
         (Int.mk None (Some (ValueFrom.mk None sec (Some kr))))
         (DependentValues.mk cms krs)) =
  fst (@Int.ToApplicableValue P (Int.mk None (Some (resourceRef kr)))
         (DependentValues.mk cms' krs)).
Proof.
  split; [|split; [|split]].
  - change (@String.ToApplicableValue P _ (DependentValues.mk cms krs)) with
      (getValueFromConfigMap cm DependentValues.FromConfigMaps
         (DependentValues.mk cms krs)).
    rewrite (@String_config_eq Q), !getValueFromConfigMap_eq. cbn.
    destruct (cms !! _) as [entry|]; [|reflexivity].
    destruct (entry !! _); reflexivity.
  - change (@Int.ToApplicableValue P
              (Int.mk None (Some (ValueFrom.mk (Some cm) sec other)))) with
      (@Int.ToApplicableValue P (Int.mk None (Some (configRef cm)))).
    rewrite (@Int_config_eq P), (@Int_config_eq Q), !getValueFromConfigMap_eq.
    cbn.
    destruct (cms !! _) as [entry|]; [|reflexivity].
    destruct (entry !! _) as [valString|]; [|reflexivity].
    destruct (strconv.Atoi valString) as [val [e|]]; reflexivity.
  - change (@String.ToApplicableValue P
              (String.mk None (Some (ValueFrom.mk None sec (Some kr))))) with
      (@String.ToApplicableValue P (String.mk None (Some (resourceRef kr)))).
    rewrite !String_resource_eq.
    apply (getValueFromKrakenResource_frame T_string).
  - change (@Int.ToApplicableValue P
              (Int.mk None (Some (ValueFrom.mk None sec (Some kr))))) with
      (@Int.ToApplicableValue P (Int.mk None (Some (resourceRef kr)))).
    unfold Int.ToApplicableValue, resourceRef, bind,
      getValueFromKrakenResource, mapIndex, gets.
    cbn.
    destruct (krs !! _) as [kind|]; [|reflexivity].
    destruct (kind !! _) as [resource|]; [|reflexivity].
    destruct (resource !! _) as [jsonVal|]; [|reflexivity].
    destruct (gabs_ParseJSON _) as [[data]|e]; [|reflexivity].
    destruct data; reflexivity.
Qed.

(** ** Validation, then materialisation *)

(** X9: for a reference that passes [Validate], materialisation either adds
    exactly one dependency to the request and returns, or, when the one
    variant set is the secret-source, panics and leaves the request as it
    was. *)
Theorem X9_validated_reference_materialised
    (vf : ValueFrom.t) (kind : reflect.Kind) (dr : DependencyRequestSpec.t) :
  ValueFrom.Validate vf = None ->
  let r := ValueFrom.AddToDependencyRequestSpec vf kind dr in
  match ValueFrom.Secret vf with
  | Some _ => r = (Panics "Unimplemented", dr)
  | None =>
      fst r = Returns tt /\
      (length (DependencyRequestSpec.ConfigMapDependencies (snd r)) +
       length (DependencyRequestSpec.KrakenResourceDependencies (snd r)) =
       length (DependencyRequestSpec.ConfigMapDependencies dr) +
       length (DependencyRequestSpec.KrakenResourceDependencies dr) + 1)%nat
  end.
Proof.
  intros Hv. apply ValueFrom_Validate_ok in Hv.
  destruct vf as [[cm|] [sec|] [kr|]], dr as [cms krs];
    unfold exactlyOneVariant in Hv; cbn in Hv; try contradiction; cbn.
  - split; [reflexivity|]. rewrite length_app. cbn. lia.
  - reflexivity.
  - split; [reflexivity|]. rewrite length_app. cbn. lia.
Qed.

Lemma X9_witness :
  ValueFrom.AddToDependencyRequestSpec (secretRef (ValueFromSecret.mk "db" "pw"))
    reflect.String (DependencyRequestSpec.mk [] []) =
    (Panics "Unimplemented", DependencyRequestSpec.mk [] []).
Proof.
  apply (X9_validated_reference_materialised
           (secretRef (ValueFromSecret.mk "db" "pw")) reflect.String
           (DependencyRequestSpec.mk [] [])).
  reflexivity.
Defined.

(** ** Storing a value and resolving it *)

Lemma setConfigValue_lookup (name key v : string) (dv : DependentValues.t) :
  exists entry,
    DependentValues.FromConfigMaps (setConfigValue name key v dv) !! name
      = Some entry /\
    entry !! key = Some v.
Proof.
  eexists. split.
  - unfold setConfigValue. cbn. apply lookup_insert_eq.
  - apply lookup_insert_eq.
Qed.

Lemma String_config_found `{Platform} (cm : ValueFromConfigMap.t)
    (dv : DependentValues.t) (entry : gmap string string) (v : string) :
  DependentValues.FromConfigMaps dv !! ValueFromConfigMap.Name cm
    = Some entry ->
  entry !! ValueFromConfigMap.Key cm = Some v ->
  String.ToApplicableValue (String.mk None (Some (configRef cm))) dv =
    (Returns (Some v, None), dv).
Proof.
  intros Hname Hkey.
  rewrite String_config_eq, getValueFromConfigMap_eq, Hname, Hkey.
  reflexivity.
Qed.

Lemma String_config_value `{Platform} (cm : ValueFromConfigMap.t)
    (dv : DependentValues.t) (v : string) :
  String.ToApplicableValue (String.mk None (Some (configRef cm))) dv =
    (Returns (Some v, None), dv) ->
  exists entry,
    DependentValues.FromConfigMaps dv !! ValueFromConfigMap.Name cm
      = Some entry /\
    entry !! ValueFromConfigMap.Key cm = Some v.
Proof.
  rewrite String_config_eq, getValueFromConfigMap_eq.
  destruct (DependentValues.FromConfigMaps dv !! _) as [entry|];
    [|discriminate].
  destruct (entry !! _) as [w|] eqn:Hkey; [|discriminate].
  intros [= ->]. exists entry. split; [reflexivity | exact Hkey].
Qed.

(** X11: a String option on a config-source resolves to the very string
    stored in the bag under its name and key, the empty string included,
    and storing a value under one name and key does not change what any
    other name and key resolves to. *)
Theorem X11_stored_string_is_resolved `{Platform}
    (cm : ValueFromConfigMap.t) (v : string) (dv : DependentValues.t) :
  let dv' := setConfigValue (ValueFromConfigMap.Name cm)
               (ValueFromConfigMap.Key cm) v dv in
  String.ToApplicableValue (String.mk None (Some (configRef cm))) dv' =
    (Returns (Some v, None), dv') /\
  (forall (other : ValueFromConfigMap.t) (w : string),
     ValueFromConfigMap.Name other <> ValueFromConfigMap.Name cm \/
     ValueFromConfigMap.Key other <> ValueFromConfigMap.Key cm ->
     String.ToApplicableValue (String.mk None (Some (configRef other))) dv =
       (Returns (Some w, None), dv) ->
     String.ToApplicableValue (String.mk None (Some (configRef other))) dv' =
       (Returns (Some w, None), dv')).
Proof.
  intros dv'. split.
  - destruct (setConfigValue_lookup (ValueFromConfigMap.Name cm)
                (ValueFromConfigMap.Key cm) v dv) as (entry & Hn & Hk).
    apply (String_config_found cm dv' entry v); assumption.
  - intros other w Hne Hw.
    apply String_config_value in Hw as (entry & Hn & Hk).
    destruct (decide (ValueFromConfigMap.Name other =
                      ValueFromConfigMap.Name cm)) as [Heq|Hneq].
    + destruct Hne as [Hne|Hne]; [contradiction|].
      apply (String_config_found other dv'
               (<[ValueFromConfigMap.Key cm := v]> entry) w).
      * unfold dv', setConfigValue. cbn. rewrite Heq in *.
        rewrite lookup_insert_eq, Hn. reflexivity.
      * rewrite lookup_insert_ne by congruence. exact Hk.
    + apply (String_config_found other dv' entry w); [|exact Hk].
      unfold dv', setConfigValue. cbn.
      rewrite lookup_insert_ne by congruence. exact Hn.
Qed.

Lemma X11_witness :
  let dv := setConfigValue "cfg" "host" "db.local" (sampleBag "8080" "3") in
  String.ToApplicableValue (H := amd64)
    (String.mk None (Some (configRef portRef))) dv =
    (Returns (Some "8080", None), dv).
Proof.
  intros dv.
  pose proof (X11_stored_string_is_resolved (H := amd64)
                (ValueFromConfigMap.mk "cfg" "host") "db.local"
                (sampleBag "8080" "3")) as [_ Hframe].
  apply (Hframe portRef "8080").
  - right. discriminate.
  - reflexivity.
Defined.

(** ** Decimal text and back *)

Lemma byte_digitChar (d : Z) :
  0 <= d <= 9 -> strconv.byte (digitChar d) = 48 + d.
Proof.
  intros Hd. unfold strconv.byte, digitChar.
  rewrite N_ascii_embedding by lia. lia.
Qed.

Lemma digitChar_not_sign (d : Z) :
  0 <= d <= 9 ->
  Ascii.eqb (digitChar d) "-" = false /\ Ascii.eqb (digitChar d) "+" = false.
Proof.
  intros Hd.
  assert (Hcases : d = 0 \/ d = 1 \/ d = 2 \/ d = 3 \/ d = 4 \/ d = 5 \/
                   d = 6 \/ d = 7 \/ d = 8 \/ d = 9) by lia.
  repeat (destruct Hcases as [-> | Hcases]; [split; reflexivity|]).
  subst d. split; reflexivity.
Qed.

Lemma digits_value_digit (d : Z) (acc : string) (a : Z) :
  0 <= d <= 9 ->
  digits_value (String (digitChar d) acc) a = digits_value acc (a * 10 + d).
Proof.
  intros Hd. cbn [digits_value]. rewrite byte_digitChar by exact Hd.
  replace ((48 <=? 48 + d) && (48 + d <=? 57)) with true
    by (symmetry; apply andb_true_iff; split; apply Z.leb_le; lia).
  f_equal. lia.
Qed.

Lemma decimal_digits_value (fuel : nat) : forall (n : Z) (acc : string),
  0 <= n < 10 ^ Z.of_nat fuel ->
  digits_value (decimal_digits fuel n acc) 0 = digits_value acc n.
Proof.
  induction fuel as [|fuel IH]; intros n acc Hn.
  - cbn in Hn. assert (n = 0) by lia. subst n. reflexivity.
  - cbn [decimal_digits].
    assert (Hmod : 0 <= n mod 10 <= 9)
      by (pose proof (Z.mod_pos_bound n 10); lia).
    destruct (n <? 10) eqn:Esmall.
    + rewrite digits_value_digit by exact Hmod.
      rewrite Z.mod_small by lia. reflexivity.
    + rewrite IH.
      * rewrite digits_value_digit by exact Hmod. f_equal.
        pose proof (Z.div_mod n 10). lia.
      * rewrite Nat2Z.inj_succ, Z.pow_succ_r in Hn by lia.
        split; [apply Z.div_pos; lia|].
        apply Z.div_lt_upper_bound; lia.
Qed.

Lemma decimal_digits_head (fuel : nat) : forall (n : Z) (acc : string),
  exists d rest,
    0 <= d <= 9 /\
    decimal_digits (S fuel) n acc = String (digitChar d) rest.
Proof.
  induction fuel as [|fuel IH]; intros n acc;
    assert (Hmod : 0 <= n mod 10 <= 9)
      by (pose proof (Z.mod_pos_bound n 10); lia).
  - exists (n mod 10), acc. split; [exact Hmod|].
    cbn. destruct (n <? 10); reflexivity.
  - cbn [decimal_digits]. destruct (n <? 10).
    + exists (n mod 10), acc. split; [exact Hmod | reflexivity].
    + apply IH.
Qed.

Lemma base10_value_decimal (n : Z) :
  - 10 ^ 20 < n < 10 ^ 20 -> base10_value (decimal n) = Some n.
Proof.
  intros Hn. unfold decimal.
  destruct (n <? 0) eqn:Eneg.
  - destruct (decimal_digits_head 19 (- n) EmptyString)
      as (d & rest & Hd & Hhead).
    cbn [base10_value]. change (Ascii.eqb "-" "-") with true. cbn iota.
    pose proof (decimal_digits_value 20 (- n) EmptyString) as Hv.
    rewrite Hhead in *. rewrite Hv by (change (Z.of_nat 20) with 20; lia).
    cbn. f_equal. lia.
  - destruct (decimal_digits_head 19 n EmptyString)
      as (d & rest & Hd & Hhead).
    pose proof (decimal_digits_value 20 n EmptyString) as Hv.
    rewrite Hhead in *. cbn [base10_value].
    destruct (digitChar_not_sign d Hd) as [-> ->].
    rewrite Hv by (change (Z.of_nat 20) with 20; lia).
    reflexivity.
Qed.

Lemma Int_config_found `{Platform} (cm : ValueFromConfigMap.t)
    (dv : DependentValues.t) (entry : gmap string string)
    (valString : string) :
  DependentValues.FromConfigMaps dv !! ValueFromConfigMap.Name cm
    = Some entry ->
  entry !! ValueFromConfigMap.Key cm = Some valString ->
  Int.ToApplicableValue (Int.mk None (Some (configRef cm))) dv =
    match strconv.Atoi valString with
    | (_, Some e) => (Returns (None, Some e), dv)
    | (val, None) => (Returns (Some val, None), dv)
    end.
Proof.
  intros Hname Hkey.
  rewrite Int_config_eq, getValueFromConfigMap_eq, Hname, Hkey.
  reflexivity.
Qed.

(** X10: every [int] can be given through a config-source.  When the bag
    holds the decimal text of an [int] [n] (a minus sign if negative, then
    the digits) under the name and key of the reference, the Int option
    resolves to [n], for the smallest and the largest [int] as for any
    other. *)
Theorem X10_decimal_text_resolves_to_its_int `{Platform}
    (cm : ValueFromConfigMap.t) (n : int) (dv : DependentValues.t) :
  is_int n = true ->
  let dv' := setConfigValue (ValueFromConfigMap.Name cm)
               (ValueFromConfigMap.Key cm) (decimal n) dv in
  Int.ToApplicableValue (Int.mk None (Some (configRef cm))) dv' =
    (Returns (Some n, None), dv').
Proof.
  intros Hint dv'.
  destruct (setConfigValue_lookup (ValueFromConfigMap.Name cm)
              (ValueFromConfigMap.Key cm) (decimal n) dv)
    as (entry & Hname & Hkey).
  rewrite (Int_config_found cm dv' entry (decimal n) Hname Hkey).
  pose proof (Atoi_base10 (decimal n)) as HA.
  rewrite base10_value_decimal, Hint in HA.
  - rewrite HA. reflexivity.
  - unfold is_int, minInt, maxInt in Hint.
    apply andb_true_iff in Hint as [H1 H2].
    apply Z.leb_le in H1, H2.
    assert (2 ^ 63 < 10 ^ 20) by (cbv; reflexivity). lia.
Qed.

Lemma X10_witness :
  let dv := setConfigValue "cfg" "port" (decimal minInt)
              (DependentValues.mk ∅ ∅) in
  decimal minInt = "-9223372036854775808" /\
  Int.ToApplicableValue (H := amd64)
    (Int.mk None (Some (configRef portRef))) dv = (Returns (Some minInt, None), dv).
Proof.
  intros dv. split; [reflexivity|].
  apply (X10_decimal_text_resolves_to_its_int (H := amd64) portRef minInt
           (DependentValues.mk ∅ ∅)).
  reflexivity.
Defined.

(** ** Validation, then resolution *)

(** X12: an option that passes [Validate] never resolves to the result with
    neither value nor error: on every bag and for every decoder a validated
    String or Int option yields a value, an error, or the panic of the
    resource lookup. *)
Theorem X12_validated_option_has_a_result `{Platform}
    (s : String.t) (i : Int.t) (dv : DependentValues.t) :
  (String.Validate s = None ->
   fst (String.ToApplicableValue s dv) <> Returns (None, None)) /\
  (Int.Validate i = None ->
   fst (Int.ToApplicableValue i dv) <> Returns (None, None)).
Proof.
  split.
  - intros Hv Hr.
    pose proof (String_ToApplicableValue_shape s dv) as Hshape.
    rewrite Hr in Hshape. destruct Hshape as [Hval Href].
    destruct s as [v r]. cbn in Hval, Href. subst. discriminate Hv.
  - intros Hv Hr.
    pose proof (Int_ToApplicableValue_shape i dv) as Hshape.
    rewrite Hr in Hshape. destruct Hshape as [Hval Href].
    destruct i as [v r]. cbn in Hval, Href. subst. discriminate Hv.
Qed.

Lemma X12_witness :
  fst (String.ToApplicableValue (H := amd64)
         (String.mk None (Some (secretRef (ValueFromSecret.mk "db" "pw"))))
         (DependentValues.mk ∅ ∅)) <> Returns (None, None).
Proof.
  apply (X12_validated_option_has_a_result (H := amd64)
           (String.mk None (Some (secretRef (ValueFromSecret.mk "db" "pw"))))
           (Int.mk None None) (DependentValues.mk ∅ ∅)).
  reflexivity.
Defined.

(** ** Where the error of a reference without source comes from *)

Lemma getValueFromConfigMap_error {S} (cm : ValueFromConfigMap.t)
    (cmVals : S -> gmap string (gmap string string)) (σ : S)
    (v : option string) (e : err) :
  fst (getValueFromConfigMap cm cmVals σ) = Returns (v, Some e) ->
  e <> errNoReference.
Proof.
  rewrite getValueFromConfigMap_eq.
  destruct (cmVals σ !! _) as [entry|]; [|intros [= <- <-]; discriminate].
  destruct (entry !! _); intros [= <- <-]; discriminate.
Qed.

Lemma getValueFromKrakenResource_error `{Platform} (T : TypeArg)
    (kr : ValueFromKrakenResource.t) (dv : DependentValues.t)
    (v : option (inst T)) (e : err) :
  fst (getValueFromKrakenResource T kr
         DependentValues.FromKrakenResources dv) = Returns (v, Some e) ->
  e <> errNoReference.
Proof.
  unfold getValueFromKrakenResource, mapIndex, bind, gets.
  destruct (DependentValues.FromKrakenResources dv !! _) as [kind|];
    [|intros [= <- <-]; discriminate].
  destruct (kind !! _) as [resource|]; [|intros [= <- <-]; discriminate].
  destruct (resource !! _) as [jsonVal|]; [|intros [= <- <-]; discriminate].
  destruct (gabs_ParseJSON _) as [[data]|e']; [|intros [= <- <-]; discriminate].
  destruct T, data; cbn; intros E; inversion E; subst; discriminate.
Qed.

Lemma Atoi_error (s : string) (v : int) (e : err) :
  strconv.Atoi s = (v, Some e) -> e <> errNoReference.
Proof.
  pose proof (Atoi_base10 s) as HA.
  destruct (base10_value s) as [n|].
  - destruct (is_int n).
    + rewrite HA. discriminate.
    + destruct HA as [x ->]. intros [= <- <-]. discriminate.
  - destruct HA as (x & e' & ->). intros [= <- <-]. discriminate.
Qed.

(** X13: resolution reports that the reference holds no non-nil pointer
    exactly when the option has no literal and its reference has neither a
    config-source nor a resource-source, whether or not its secret-source
    is set; no lookup, decoding or parsing failure produces this error. *)
Theorem X13_no_source_error `{Platform}
    (s : String.t) (i : Int.t) (dv : DependentValues.t) :
  (fst (String.ToApplicableValue s dv) = Returns (None, Some errNoReference)
   <->
   String.Value s = None /\
   exists vf, String.ValueFrom s = Some vf /\
              ValueFrom.ConfigMap vf = None /\
              ValueFrom.KrakenResource vf = None) /\
  (fst (Int.ToApplicableValue i dv) = Returns (None, Some errNoReference)
   <->
   Int.Value i = None /\
   exists vf, Int.ValueFrom i = Some vf /\
              ValueFrom.ConfigMap vf = None /\
              ValueFrom.KrakenResource vf = None).
Proof.
  split; split.
  - destruct s as [[v|] [[[cm|] sec [kr|]]|]]; cbn [String.Value String.ValueFrom];
      intros Hr; try discriminate Hr.
    + exfalso. revert Hr.
      change (String.ToApplicableValue _ dv) with
        (getValueFromConfigMap cm DependentValues.FromConfigMaps dv).
      intros Hr. apply getValueFromConfigMap_error in Hr. congruence.
    + exfalso. revert Hr.
      change (String.ToApplicableValue _ dv) with
        (getValueFromConfigMap cm DependentValues.FromConfigMaps dv).
      intros Hr. apply getValueFromConfigMap_error in Hr. congruence.
    + exfalso. revert Hr.
      change (String.ToApplicableValue _ dv) with
        (getValueFromKrakenResource T_string kr
           DependentValues.FromKrakenResources dv).
      intros Hr. apply (getValueFromKrakenResource_error T_string) in Hr.
      congruence.
    + split; [reflexivity|]. eexists. repeat split.
  - intros [Hv (vf & Hvf & Hcm & Hkr)].
    destruct s as [v r]. cbn in Hv, Hvf. subst v r.
    destruct vf as [cm sec kr]. cbn in Hcm, Hkr. subst cm kr. reflexivity.
  - destruct i as [[v|] [[[cm|] sec [kr|]]|]]; cbn [Int.Value Int.ValueFrom];
      intros Hr; try discriminate Hr.
    + exfalso. revert Hr.
      change (Int.ToApplicableValue _ dv) with
        (Int.ToApplicableValue (Int.mk None (Some (configRef cm))) dv).
      rewrite Int_config_eq.
      destruct (getValueFromConfigMap _ _ _)
        as [[[[valString|] [e|]]|?] dv'] eqn:E; cbn; intros Hr;
        try discriminate Hr.
      * injection Hr as ->.
        apply (getValueFromConfigMap_error cm DependentValues.FromConfigMaps
                 dv (Some valString) errNoReference); [|reflexivity].
        rewrite E. reflexivity.
      * destruct (strconv.Atoi valString) as [val [e|]] eqn:EA;
          [|discriminate Hr].
        injection Hr as ->. apply Atoi_error in EA. congruence.
      * injection Hr as ->.
        apply (getValueFromConfigMap_error cm DependentValues.FromConfigMaps
                 dv None errNoReference); [|reflexivity].
        rewrite E. reflexivity.
    + exfalso. revert Hr.
      change (Int.ToApplicableValue _ dv) with
        (Int.ToApplicableValue (Int.mk None (Some (configRef cm))) dv).
      rewrite Int_config_eq.
      destruct (getValueFromConfigMap _ _ _)
        as [[[[valString|] [e|]]|?] dv'] eqn:E; cbn; intros Hr;
        try discriminate Hr.
      * injection Hr as ->.
        apply (getValueFromConfigMap_error cm DependentValues.FromConfigMaps
                 dv (Some valString) errNoReference); [|reflexivity].
        rewrite E. reflexivity.
      * destruct (strconv.Atoi valString) as [val [e|]] eqn:EA;
          [|discriminate Hr].
        injection Hr as ->. apply Atoi_error in EA. congruence.
      * injection Hr as ->.
        apply (getValueFromConfigMap_error cm DependentValues.FromConfigMaps
                 dv None errNoReference); [|reflexivity].
        rewrite E. reflexivity.
    + exfalso. revert Hr.
      change (Int.ToApplicableValue _ dv) with
        (Int.ToApplicableValue (Int.mk None (Some (resourceRef kr))) dv).
      rewrite Int_resource_eq.
      destruct (getValueFromKrakenResource _ _ _ _)
        as [[[[valFloat|] [e|]]|?] dv'] eqn:E; cbn; intros Hr;
        try discriminate Hr.
      * injection Hr as ->.
        apply (getValueFromKrakenResource_error T_float64 kr dv
                 (Some valFloat) errNoReference); [|reflexivity].
        rewrite E. reflexivity.
      * injection Hr as ->.
        apply (getValueFromKrakenResource_error T_float64 kr dv
                 None errNoReference); [|reflexivity].
        rewrite E. reflexivity.
    + split; [reflexivity|]. eexists. repeat split.
  - intros [Hv (vf & Hvf & Hcm & Hkr)].
    destruct i as [v r]. cbn in Hv, Hvf. subst v r.
    destruct vf as [cm sec kr]. cbn in Hcm, Hkr. subst cm kr. reflexivity.
Qed.

(** ** Materialisation, call after call *)

Lemma AddToDependencyRequestSpec_returns (vf : ValueFrom.t)
    (kind : reflect.Kind) (dr : DependencyRequestSpec.t) :
  ValueFrom.Secret vf = None ->
  ValueFrom.AddToDependencyRequestSpec vf kind dr =
    (Returns tt,
     DependencyRequestSpec.mk
       (DependencyRequestSpec.ConfigMapDependencies dr ++
        match ValueFrom.ConfigMap vf with
        | Some cm => [ValueFromConfigMap.ToConfigMapDependency cm]
        | None => []
        end)
       (DependencyRequestSpec.KrakenResourceDependencies dr ++
        match ValueFrom.KrakenResource vf with
        | Some kr =>
            [ValueFromKrakenResource.ToKrakenResourceDependency kr kind]
        | None => []
        end)).
Proof.
  destruct vf as [[cm|] [sec|] [kr|]], dr as [cms krs]; cbn;
    intros Hs; try discriminate Hs; rewrite ?app_nil_r; reflexivity.
Qed.

(** X14: the dependencies of several references accumulate in the order of
    the calls.  After materialising a first reference without
    secret-source and then a second one, each list of the request is the
    list before the calls followed by the dependency of the first
    reference, if it has that variant, and then that of the second; no
    entry is dropped, reordered or merged, so that the same reference
    materialised twice is listed twice. *)
Theorem X14_dependencies_accumulate_in_order
    (vf1 vf2 : ValueFrom.t) (kind1 kind2 : reflect.Kind)
    (dr : DependencyRequestSpec.t) :
  ValueFrom.Secret vf1 = None ->
  let cmDeps := fun vf =>
    match ValueFrom.ConfigMap vf with
    | Some cm => [ConfigMapDependency.mk (ValueFromConfigMap.Name cm)
                    (ValueFromConfigMap.Key cm)]
    | None => []
    end in
  let krDeps := fun vf kind =>
    match ValueFrom.KrakenResource vf with
    | Some kr => [KrakenResourceDependency.mk
                    (ValueFromKrakenResource.Kind kr)
                    (ValueFromKrakenResource.Name kr)
                    (ValueFromKrakenResource.Path kr) kind]
    | None => []
    end in
  let r := (ValueFrom.AddToDependencyRequestSpec vf1 kind1 ;;;
            ValueFrom.AddToDependencyRequestSpec vf2 kind2) dr in
  DependencyRequestSpec.ConfigMapDependencies (snd r) =
    (DependencyRequestSpec.ConfigMapDependencies dr ++
     cmDeps vf1 ++ cmDeps vf2)%list /\
  DependencyRequestSpec.KrakenResourceDependencies (snd r) =
    (DependencyRequestSpec.KrakenResourceDependencies dr ++
     krDeps vf1 kind1 ++ krDeps vf2 kind2)%list /\
  fst r = match ValueFrom.Secret vf2 with
          | Some _ => Panics "Unimplemented"
          | None => Returns tt
          end.
Proof.
  intros Hs1 cmDeps krDeps r. unfold r, bind.
  rewrite (AddToDependencyRequestSpec_returns vf1 kind1 dr Hs1).
  destruct vf1 as [[cm1|] sec1 [kr1|]], vf2 as [[cm2|] [sec2|] [kr2|]],
    dr as [cms krs]; cbn; rewrite ?app_nil_r, <- ?app_assoc;
    repeat split.
Qed.

Lemma X14_witness :
  DependencyRequestSpec.ConfigMapDependencies
    (snd ((ValueFrom.AddToDependencyRequestSpec (configRef portRef)
             reflect.Int ;;;
           ValueFrom.AddToDependencyRequestSpec (configRef portRef)
             reflect.Int)
            (DependencyRequestSpec.mk [] []))) =
    [ConfigMapDependency.mk "cfg" "port"; ConfigMapDependency.mk "cfg" "port"].
Proof.
  exact (proj1 (X14_dependencies_accumulate_in_order (configRef portRef)
                  (configRef portRef) reflect.Int reflect.Int
                  (DependencyRequestSpec.mk [] []) eq_refl)).
Defined.
